(** * Monitor de Empleo Santa Fe (monitor_cloud.py): change detection

    A shallow embedding of [MonitorEmpleoCloud] and the properties of its
    fingerprint ([calcular_hash]), link resolution ([construir_enlace]),
    diff ([detectar_nuevas_ofertas]), digest message ([enviar_telegram])
    and run controller ([ejecutar]).

    Conventions of the embedding.
    - A Python [str] is a Rocq [string] holding its UTF-8 encoding, so that
      concatenation, [startswith] and [encode()] are the byte-level
      operations.  [str.lower] and [str.strip] work on the characters, with
      the tables of the Unicode database (module [Unicode]).  A [str] that
      holds a lone surrogate has no UTF-8 encoding ([encode()] raises
      UnicodeEncodeError on it) and is outside the strings modelled.
    - What the program obtains from outside (the HTTP response as seen
      through BeautifulSoup's queries, the contents of the state file, the
      clock, the outcome of the Telegram POST and of the file write) is an
      explicit environment record.
    - What the program does to the outside (console lines, HTTP requests,
      the state-file write) is a list of events, threaded by a small
      writer-and-exception monad. *)

From Stdlib Require Import ZArith Ascii String List Lia.
From stdpp Require Import base list strings gmap pretty.
Import ListNotations.

#[local] Set Warnings "-register-all,-clear-no-such-hyp".

Local Open Scope string_scope.

(** ** MD5 (RFC 1321), as [hashlib.md5(...).hexdigest()] computes it *)

Module MD5.
Local Open Scope Z_scope.

Definition w32 (x : Z) : Z := x mod 2 ^ 32.

Definition add32 (x y : Z) : Z := w32 (x + y).

Definition not32 (x : Z) : Z := Z.lxor x 0xffffffff.

Definition rotl32 (x n : Z) : Z :=
  Z.lor (w32 (Z.shiftl x n)) (Z.shiftr x (32 - n)).

(** Per-round shift amounts. *)
Definition S_tabla : list Z :=
  [ 7; 12; 17; 22;  7; 12; 17; 22;  7; 12; 17; 22;  7; 12; 17; 22;
    5;  9; 14; 20;  5;  9; 14; 20;  5;  9; 14; 20;  5;  9; 14; 20;
    4; 11; 16; 23;  4; 11; 16; 23;  4; 11; 16; 23;  4; 11; 16; 23;
    6; 10; 15; 21;  6; 10; 15; 21;  6; 10; 15; 21;  6; 10; 15; 21 ].

(** [K_tabla[i] = floor (2^32 * |sin (i + 1)|)]. *)
Definition K_tabla : list Z :=
  [ 0xd76aa478; 0xe8c7b756; 0x242070db; 0xc1bdceee; 0xf57c0faf; 0x4787c62a; 0xa8304613; 0xfd469501;
    0x698098d8; 0x8b44f7af; 0xffff5bb1; 0x895cd7be; 0x6b901122; 0xfd987193; 0xa679438e; 0x49b40821;
    0xf61e2562; 0xc040b340; 0x265e5a51; 0xe9b6c7aa; 0xd62f105d; 0x02441453; 0xd8a1e681; 0xe7d3fbc8;
    0x21e1cde6; 0xc33707d6; 0xf4d50d87; 0x455a14ed; 0xa9e3e905; 0xfcefa3f8; 0x676f02d9; 0x8d2a4c8a;
    0xfffa3942; 0x8771f681; 0x6d9d6122; 0xfde5380c; 0xa4beea44; 0x4bdecfa9; 0xf6bb4b60; 0xbebfbc70;
    0x289b7ec6; 0xeaa127fa; 0xd4ef3085; 0x04881d05; 0xd9d4d039; 0xe6db99e5; 0x1fa27cf8; 0xc4ac5665;
    0xf4292244; 0x432aff97; 0xab9423a7; 0xfc93a039; 0x655b59c3; 0x8f0ccc92; 0xffeff47d; 0x85845dd1;
    0x6fa87e4f; 0xfe2ce6e0; 0xa3014314; 0x4e0811a1; 0xf7537e82; 0xbd3af235; 0x2ad7d2bb; 0xeb86d391 ].

Definition nth_Z (l : list Z) (i : Z) : Z := nth (Z.to_nat i) l 0.

(** The four working registers. *)
Record regs := Regs { rA : Z; rB : Z; rC : Z; rD : Z }.

Definition iniciales : regs :=
  Regs 0x67452301 0xefcdab89 0x98badcfe 0x10325476.

(** One of the 64 operations on a block [M] of sixteen 32-bit words. *)
Definition paso (M : list Z) (r : regs) (i : Z) : regs :=
  let '(Regs A B C D) := r in
  let '(F, g) :=
    if i <? 16 then (Z.lor (Z.land B C) (Z.land (not32 B) D), i)
    else if i <? 32 then (Z.lor (Z.land D B) (Z.land (not32 D) C), (5 * i + 1) mod 16)
    else if i <? 48 then (Z.lxor (Z.lxor B C) D, (3 * i + 5) mod 16)
    else (Z.lxor C (Z.lor B (not32 D)), (7 * i) mod 16) in
  let F' := add32 (add32 (add32 F A) (nth_Z K_tabla i)) (nth_Z M g) in
  Regs D (add32 B (rotl32 F' (nth_Z S_tabla i))) B C.

Definition indices : list Z := map Z.of_nat (seq 0 64).

Definition bloque (r : regs) (M : list Z) : regs :=
  let r' := fold_left (paso M) indices r in
  Regs (add32 (rA r) (rA r')) (add32 (rB r) (rB r'))
       (add32 (rC r) (rC r')) (add32 (rD r) (rD r')).

(** Little-endian bytes of a value, [n] of them. *)
Fixpoint le_bytes (n : nat) (x : Z) : list Z :=
  match n with
  | O => []
  | S n' => x mod 256 :: le_bytes n' (x / 256)
  end.

Fixpoint le_word (bs : list Z) : Z :=
  match bs with
  | [] => 0
  | b :: bs' => b + 256 * le_word bs'
  end.

(** Padding: a 1 bit, zeros up to 56 mod 64, the bit length on 64 bits. *)
Definition relleno (msg : list Z) : list Z :=
  let len := Z.of_nat (length msg) in
  let ceros := Z.to_nat ((55 - len) mod 64) in
  msg ++ [0x80] ++ repeat 0 ceros ++ le_bytes 8 ((8 * len) mod 2 ^ 64).

(** Cut a list into consecutive pieces of [n] elements; [fuel] bounds the
    number of pieces. *)
Fixpoint trozos {A} (fuel n : nat) (l : list A) : list (list A) :=
  match fuel, l with
  | O, _ | _, [] => []
  | S fuel', _ => firstn n l :: trozos fuel' n (skipn n l)
  end.

Definition palabras (blk : list Z) : list Z :=
  map le_word (trozos 16 4 blk).

Definition digest (msg : list Z) : list Z :=
  let p := relleno msg in
  let r := fold_left bloque (map palabras (trozos (length p) 64 p)) iniciales in
  le_bytes 4 (rA r) ++ le_bytes 4 (rB r) ++ le_bytes 4 (rC r) ++ le_bytes 4 (rD r).

Definition hex_digit (d : Z) : ascii :=
  ascii_of_nat (Z.to_nat (if d <? 10 then 48 + d else 87 + d)).

Fixpoint hex (bs : list Z) : string :=
  match bs with
  | [] => EmptyString
  | b :: bs' => String (hex_digit (b / 16)) (String (hex_digit (b mod 16)) (hex bs'))
  end.

(** [str.encode()] followed by the digest: the string already holds the
    UTF-8 bytes. *)
Definition encode (s : string) : list Z :=
  map (fun c => Z.of_nat (nat_of_ascii c)) (list_ascii_of_string s).

Definition hexdigest (s : string) : string := hex (digest (encode s)).

End MD5.

(** ** Python strings *)

Definition nl : string := String (ascii_of_nat 10) EmptyString.

(** The character database behind [str.lower] and [str.strip], with the
    tables of Unicode 14.0.0 as CPython 3.11 carries them; a character is
    its code point. *)
Module Unicode.
Local Open Scope Z_scope.

(** The characters [str.isspace] accepts. *)
Definition espacios : list Z :=
  [ 0x9; 0xA; 0xB; 0xC; 0xD; 0x1C; 0x1D; 0x1E; 0x1F; 0x20; 0x85; 0xA0; 0x1680; 0x2000; 0x2001; 0x2002; 0x2003; 0x2004; 0x2005; 0x2006; 0x2007; 0x2008; 0x2009; 0x200A; 0x2028; 0x2029; 0x202F; 0x205F; 0x3000 ].

(** The property Cased, as ranges of code points. *)
Definition rangos_cased : list (Z * Z) :=
  [
    (0x41, 0x5A); (0x61, 0x7A); (0xAA, 0xAA); (0xB5, 0xB5); (0xBA, 0xBA); (0xC0, 0xD6);
    (0xD8, 0xF6); (0xF8, 0x1BA); (0x1BC, 0x1BF); (0x1C4, 0x293); (0x295, 0x2B8); (0x2C0, 0x2C1);
    (0x2E0, 0x2E4); (0x345, 0x345); (0x370, 0x373); (0x376, 0x377); (0x37A, 0x37D); (0x37F, 0x37F);
    (0x386, 0x386); (0x388, 0x38A); (0x38C, 0x38C); (0x38E, 0x3A1); (0x3A3, 0x3F5); (0x3F7, 0x481);
    (0x48A, 0x52F); (0x531, 0x556); (0x560, 0x588); (0x10A0, 0x10C5); (0x10C7, 0x10C7); (0x10CD, 0x10CD);
    (0x10D0, 0x10FA); (0x10FD, 0x10FF); (0x13A0, 0x13F5); (0x13F8, 0x13FD); (0x1C80, 0x1C88); (0x1C90, 0x1CBA);
    (0x1CBD, 0x1CBF); (0x1D00, 0x1DBF); (0x1E00, 0x1F15); (0x1F18, 0x1F1D); (0x1F20, 0x1F45); (0x1F48, 0x1F4D);
    (0x1F50, 0x1F57); (0x1F59, 0x1F59); (0x1F5B, 0x1F5B); (0x1F5D, 0x1F5D); (0x1F5F, 0x1F7D); (0x1F80, 0x1FB4);
    (0x1FB6, 0x1FBC); (0x1FBE, 0x1FBE); (0x1FC2, 0x1FC4); (0x1FC6, 0x1FCC); (0x1FD0, 0x1FD3); (0x1FD6, 0x1FDB);
    (0x1FE0, 0x1FEC); (0x1FF2, 0x1FF4); (0x1FF6, 0x1FFC); (0x2071, 0x2071); (0x207F, 0x207F); (0x2090, 0x209C);
    (0x2102, 0x2102); (0x2107, 0x2107); (0x210A, 0x2113); (0x2115, 0x2115); (0x2119, 0x211D); (0x2124, 0x2124);
    (0x2126, 0x2126); (0x2128, 0x2128); (0x212A, 0x212D); (0x212F, 0x2134); (0x2139, 0x2139); (0x213C, 0x213F);
    (0x2145, 0x2149); (0x214E, 0x214E); (0x2160, 0x217F); (0x2183, 0x2184); (0x24B6, 0x24E9); (0x2C00, 0x2CE4);
    (0x2CEB, 0x2CEE); (0x2CF2, 0x2CF3); (0x2D00, 0x2D25); (0x2D27, 0x2D27); (0x2D2D, 0x2D2D); (0xA640, 0xA66D);
    (0xA680, 0xA69D); (0xA722, 0xA787); (0xA78B, 0xA78E); (0xA790, 0xA7CA); (0xA7D0, 0xA7D1); (0xA7D3, 0xA7D3);
    (0xA7D5, 0xA7D9); (0xA7F5, 0xA7F6); (0xA7F8, 0xA7FA); (0xAB30, 0xAB5A); (0xAB5C, 0xAB68); (0xAB70, 0xABBF);
    (0xFB00, 0xFB06); (0xFB13, 0xFB17); (0xFF21, 0xFF3A); (0xFF41, 0xFF5A); (0x10400, 0x1044F); (0x104B0, 0x104D3);
    (0x104D8, 0x104FB); (0x10570, 0x1057A); (0x1057C, 0x1058A); (0x1058C, 0x10592); (0x10594, 0x10595); (0x10597, 0x105A1);
    (0x105A3, 0x105B1); (0x105B3, 0x105B9); (0x105BB, 0x105BC); (0x10780, 0x10780); (0x10783, 0x10785); (0x10787, 0x107B0);
    (0x107B2, 0x107BA); (0x10C80, 0x10CB2); (0x10CC0, 0x10CF2); (0x118A0, 0x118DF); (0x16E40, 0x16E7F); (0x1D400, 0x1D454);
    (0x1D456, 0x1D49C); (0x1D49E, 0x1D49F); (0x1D4A2, 0x1D4A2); (0x1D4A5, 0x1D4A6); (0x1D4A9, 0x1D4AC); (0x1D4AE, 0x1D4B9);
    (0x1D4BB, 0x1D4BB); (0x1D4BD, 0x1D4C3); (0x1D4C5, 0x1D505); (0x1D507, 0x1D50A); (0x1D50D, 0x1D514); (0x1D516, 0x1D51C);
    (0x1D51E, 0x1D539); (0x1D53B, 0x1D53E); (0x1D540, 0x1D544); (0x1D546, 0x1D546); (0x1D54A, 0x1D550); (0x1D552, 0x1D6A5);
    (0x1D6A8, 0x1D6C0); (0x1D6C2, 0x1D6DA); (0x1D6DC, 0x1D6FA); (0x1D6FC, 0x1D714); (0x1D716, 0x1D734); (0x1D736, 0x1D74E);
    (0x1D750, 0x1D76E); (0x1D770, 0x1D788); (0x1D78A, 0x1D7A8); (0x1D7AA, 0x1D7C2); (0x1D7C4, 0x1D7CB); (0x1DF00, 0x1DF09);
    (0x1DF0B, 0x1DF1E); (0x1E900, 0x1E943); (0x1F130, 0x1F149); (0x1F150, 0x1F169); (0x1F170, 0x1F189) ].

(** The property Case_Ignorable. *)
Definition rangos_case_ignorable : list (Z * Z) :=
  [
    (0x27, 0x27); (0x2E, 0x2E); (0x3A, 0x3A); (0x5E, 0x5E); (0x60, 0x60); (0xA8, 0xA8);
    (0xAD, 0xAD); (0xAF, 0xAF); (0xB4, 0xB4); (0xB7, 0xB8); (0x2B0, 0x36F); (0x374, 0x375);
    (0x37A, 0x37A); (0x384, 0x385); (0x387, 0x387); (0x483, 0x489); (0x559, 0x559); (0x55F, 0x55F);
    (0x591, 0x5BD); (0x5BF, 0x5BF); (0x5C1, 0x5C2); (0x5C4, 0x5C5); (0x5C7, 0x5C7); (0x5F4, 0x5F4);
    (0x600, 0x605); (0x610, 0x61A); (0x61C, 0x61C); (0x640, 0x640); (0x64B, 0x65F); (0x670, 0x670);
    (0x6D6, 0x6DD); (0x6DF, 0x6E8); (0x6EA, 0x6ED); (0x70F, 0x70F); (0x711, 0x711); (0x730, 0x74A);
    (0x7A6, 0x7B0); (0x7EB, 0x7F5); (0x7FA, 0x7FA); (0x7FD, 0x7FD); (0x816, 0x82D); (0x859, 0x85B);
    (0x888, 0x888); (0x890, 0x891); (0x898, 0x89F); (0x8C9, 0x902); (0x93A, 0x93A); (0x93C, 0x93C);
    (0x941, 0x948); (0x94D, 0x94D); (0x951, 0x957); (0x962, 0x963); (0x971, 0x971); (0x981, 0x981);
    (0x9BC, 0x9BC); (0x9C1, 0x9C4); (0x9CD, 0x9CD); (0x9E2, 0x9E3); (0x9FE, 0x9FE); (0xA01, 0xA02);
    (0xA3C, 0xA3C); (0xA41, 0xA42); (0xA47, 0xA48); (0xA4B, 0xA4D); (0xA51, 0xA51); (0xA70, 0xA71);
    (0xA75, 0xA75); (0xA81, 0xA82); (0xABC, 0xABC); (0xAC1, 0xAC5); (0xAC7, 0xAC8); (0xACD, 0xACD);
    (0xAE2, 0xAE3); (0xAFA, 0xAFF); (0xB01, 0xB01); (0xB3C, 0xB3C); (0xB3F, 0xB3F); (0xB41, 0xB44);
    (0xB4D, 0xB4D); (0xB55, 0xB56); (0xB62, 0xB63); (0xB82, 0xB82); (0xBC0, 0xBC0); (0xBCD, 0xBCD);
    (0xC00, 0xC00); (0xC04, 0xC04); (0xC3C, 0xC3C); (0xC3E, 0xC40); (0xC46, 0xC48); (0xC4A, 0xC4D);
    (0xC55, 0xC56); (0xC62, 0xC63); (0xC81, 0xC81); (0xCBC, 0xCBC); (0xCBF, 0xCBF); (0xCC6, 0xCC6);
    (0xCCC, 0xCCD); (0xCE2, 0xCE3); (0xD00, 0xD01); (0xD3B, 0xD3C); (0xD41, 0xD44); (0xD4D, 0xD4D);
    (0xD62, 0xD63); (0xD81, 0xD81); (0xDCA, 0xDCA); (0xDD2, 0xDD4); (0xDD6, 0xDD6); (0xE31, 0xE31);
    (0xE34, 0xE3A); (0xE46, 0xE4E); (0xEB1, 0xEB1); (0xEB4, 0xEBC); (0xEC6, 0xEC6); (0xEC8, 0xECD);
    (0xF18, 0xF19); (0xF35, 0xF35); (0xF37, 0xF37); (0xF39, 0xF39); (0xF71, 0xF7E); (0xF80, 0xF84);
    (0xF86, 0xF87); (0xF8D, 0xF97); (0xF99, 0xFBC); (0xFC6, 0xFC6); (0x102D, 0x1030); (0x1032, 0x1037);
    (0x1039, 0x103A); (0x103D, 0x103E); (0x1058, 0x1059); (0x105E, 0x1060); (0x1071, 0x1074); (0x1082, 0x1082);
    (0x1085, 0x1086); (0x108D, 0x108D); (0x109D, 0x109D); (0x10FC, 0x10FC); (0x135D, 0x135F); (0x1712, 0x1714);
    (0x1732, 0x1733); (0x1752, 0x1753); (0x1772, 0x1773); (0x17B4, 0x17B5); (0x17B7, 0x17BD); (0x17C6, 0x17C6);
    (0x17C9, 0x17D3); (0x17D7, 0x17D7); (0x17DD, 0x17DD); (0x180B, 0x180F); (0x1843, 0x1843); (0x1885, 0x1886);
    (0x18A9, 0x18A9); (0x1920, 0x1922); (0x1927, 0x1928); (0x1932, 0x1932); (0x1939, 0x193B); (0x1A17, 0x1A18);
    (0x1A1B, 0x1A1B); (0x1A56, 0x1A56); (0x1A58, 0x1A5E); (0x1A60, 0x1A60); (0x1A62, 0x1A62); (0x1A65, 0x1A6C);
    (0x1A73, 0x1A7C); (0x1A7F, 0x1A7F); (0x1AA7, 0x1AA7); (0x1AB0, 0x1ACE); (0x1B00, 0x1B03); (0x1B34, 0x1B34);
    (0x1B36, 0x1B3A); (0x1B3C, 0x1B3C); (0x1B42, 0x1B42); (0x1B6B, 0x1B73); (0x1B80, 0x1B81); (0x1BA2, 0x1BA5);
    (0x1BA8, 0x1BA9); (0x1BAB, 0x1BAD); (0x1BE6, 0x1BE6); (0x1BE8, 0x1BE9); (0x1BED, 0x1BED); (0x1BEF, 0x1BF1);
    (0x1C2C, 0x1C33); (0x1C36, 0x1C37); (0x1C78, 0x1C7D); (0x1CD0, 0x1CD2); (0x1CD4, 0x1CE0); (0x1CE2, 0x1CE8);
    (0x1CED, 0x1CED); (0x1CF4, 0x1CF4); (0x1CF8, 0x1CF9); (0x1D2C, 0x1D6A); (0x1D78, 0x1D78); (0x1D9B, 0x1DFF);
    (0x1FBD, 0x1FBD); (0x1FBF, 0x1FC1); (0x1FCD, 0x1FCF); (0x1FDD, 0x1FDF); (0x1FED, 0x1FEF); (0x1FFD, 0x1FFE);
    (0x200B, 0x200F); (0x2018, 0x2019); (0x2024, 0x2024); (0x2027, 0x2027); (0x202A, 0x202E); (0x2060, 0x2064);
    (0x2066, 0x206F); (0x2071, 0x2071); (0x207F, 0x207F); (0x2090, 0x209C); (0x20D0, 0x20F0); (0x2C7C, 0x2C7D);
    (0x2CEF, 0x2CF1); (0x2D6F, 0x2D6F); (0x2D7F, 0x2D7F); (0x2DE0, 0x2DFF); (0x2E2F, 0x2E2F); (0x3005, 0x3005);
    (0x302A, 0x302D); (0x3031, 0x3035); (0x303B, 0x303B); (0x3099, 0x309E); (0x30FC, 0x30FE); (0xA015, 0xA015);
    (0xA4F8, 0xA4FD); (0xA60C, 0xA60C); (0xA66F, 0xA672); (0xA674, 0xA67D); (0xA67F, 0xA67F); (0xA69C, 0xA69F);
    (0xA6F0, 0xA6F1); (0xA700, 0xA721); (0xA770, 0xA770); (0xA788, 0xA78A); (0xA7F2, 0xA7F4); (0xA7F8, 0xA7F9);
    (0xA802, 0xA802); (0xA806, 0xA806); (0xA80B, 0xA80B); (0xA825, 0xA826); (0xA82C, 0xA82C); (0xA8C4, 0xA8C5);
    (0xA8E0, 0xA8F1); (0xA8FF, 0xA8FF); (0xA926, 0xA92D); (0xA947, 0xA951); (0xA980, 0xA982); (0xA9B3, 0xA9B3);
    (0xA9B6, 0xA9B9); (0xA9BC, 0xA9BD); (0xA9CF, 0xA9CF); (0xA9E5, 0xA9E6); (0xAA29, 0xAA2E); (0xAA31, 0xAA32);
    (0xAA35, 0xAA36); (0xAA43, 0xAA43); (0xAA4C, 0xAA4C); (0xAA70, 0xAA70); (0xAA7C, 0xAA7C); (0xAAB0, 0xAAB0);
    (0xAAB2, 0xAAB4); (0xAAB7, 0xAAB8); (0xAABE, 0xAABF); (0xAAC1, 0xAAC1); (0xAADD, 0xAADD); (0xAAEC, 0xAAED);
    (0xAAF3, 0xAAF4); (0xAAF6, 0xAAF6); (0xAB5B, 0xAB5F); (0xAB69, 0xAB6B); (0xABE5, 0xABE5); (0xABE8, 0xABE8);
    (0xABED, 0xABED); (0xFB1E, 0xFB1E); (0xFBB2, 0xFBC2); (0xFE00, 0xFE0F); (0xFE13, 0xFE13); (0xFE20, 0xFE2F);
    (0xFE52, 0xFE52); (0xFE55, 0xFE55); (0xFEFF, 0xFEFF); (0xFF07, 0xFF07); (0xFF0E, 0xFF0E); (0xFF1A, 0xFF1A);
    (0xFF3E, 0xFF3E); (0xFF40, 0xFF40); (0xFF70, 0xFF70); (0xFF9E, 0xFF9F); (0xFFE3, 0xFFE3); (0xFFF9, 0xFFFB);
    (0x101FD, 0x101FD); (0x102E0, 0x102E0); (0x10376, 0x1037A); (0x10780, 0x10785); (0x10787, 0x107B0); (0x107B2, 0x107BA);
    (0x10A01, 0x10A03); (0x10A05, 0x10A06); (0x10A0C, 0x10A0F); (0x10A38, 0x10A3A); (0x10A3F, 0x10A3F); (0x10AE5, 0x10AE6);
    (0x10D24, 0x10D27); (0x10EAB, 0x10EAC); (0x10F46, 0x10F50); (0x10F82, 0x10F85); (0x11001, 0x11001); (0x11038, 0x11046);
    (0x11070, 0x11070); (0x11073, 0x11074); (0x1107F, 0x11081); (0x110B3, 0x110B6); (0x110B9, 0x110BA); (0x110BD, 0x110BD);
    (0x110C2, 0x110C2); (0x110CD, 0x110CD); (0x11100, 0x11102); (0x11127, 0x1112B); (0x1112D, 0x11134); (0x11173, 0x11173);
    (0x11180, 0x11181); (0x111B6, 0x111BE); (0x111C9, 0x111CC); (0x111CF, 0x111CF); (0x1122F, 0x11231); (0x11234, 0x11234);
    (0x11236, 0x11237); (0x1123E, 0x1123E); (0x112DF, 0x112DF); (0x112E3, 0x112EA); (0x11300, 0x11301); (0x1133B, 0x1133C);
    (0x11340, 0x11340); (0x11366, 0x1136C); (0x11370, 0x11374); (0x11438, 0x1143F); (0x11442, 0x11444); (0x11446, 0x11446);
    (0x1145E, 0x1145E); (0x114B3, 0x114B8); (0x114BA, 0x114BA); (0x114BF, 0x114C0); (0x114C2, 0x114C3); (0x115B2, 0x115B5);
    (0x115BC, 0x115BD); (0x115BF, 0x115C0); (0x115DC, 0x115DD); (0x11633, 0x1163A); (0x1163D, 0x1163D); (0x1163F, 0x11640);
    (0x116AB, 0x116AB); (0x116AD, 0x116AD); (0x116B0, 0x116B5); (0x116B7, 0x116B7); (0x1171D, 0x1171F); (0x11722, 0x11725);
    (0x11727, 0x1172B); (0x1182F, 0x11837); (0x11839, 0x1183A); (0x1193B, 0x1193C); (0x1193E, 0x1193E); (0x11943, 0x11943);
    (0x119D4, 0x119D7); (0x119DA, 0x119DB); (0x119E0, 0x119E0); (0x11A01, 0x11A0A); (0x11A33, 0x11A38); (0x11A3B, 0x11A3E);
    (0x11A47, 0x11A47); (0x11A51, 0x11A56); (0x11A59, 0x11A5B); (0x11A8A, 0x11A96); (0x11A98, 0x11A99); (0x11C30, 0x11C36);
    (0x11C38, 0x11C3D); (0x11C3F, 0x11C3F); (0x11C92, 0x11CA7); (0x11CAA, 0x11CB0); (0x11CB2, 0x11CB3); (0x11CB5, 0x11CB6);
    (0x11D31, 0x11D36); (0x11D3A, 0x11D3A); (0x11D3C, 0x11D3D); (0x11D3F, 0x11D45); (0x11D47, 0x11D47); (0x11D90, 0x11D91);
    (0x11D95, 0x11D95); (0x11D97, 0x11D97); (0x11EF3, 0x11EF4); (0x13430, 0x13438); (0x16AF0, 0x16AF4); (0x16B30, 0x16B36);
    (0x16B40, 0x16B43); (0x16F4F, 0x16F4F); (0x16F8F, 0x16F9F); (0x16FE0, 0x16FE1); (0x16FE3, 0x16FE4); (0x1AFF0, 0x1AFF3);
    (0x1AFF5, 0x1AFFB); (0x1AFFD, 0x1AFFE); (0x1BC9D, 0x1BC9E); (0x1BCA0, 0x1BCA3); (0x1CF00, 0x1CF2D); (0x1CF30, 0x1CF46);
    (0x1D167, 0x1D169); (0x1D173, 0x1D182); (0x1D185, 0x1D18B); (0x1D1AA, 0x1D1AD); (0x1D242, 0x1D244); (0x1DA00, 0x1DA36);
    (0x1DA3B, 0x1DA6C); (0x1DA75, 0x1DA75); (0x1DA84, 0x1DA84); (0x1DA9B, 0x1DA9F); (0x1DAA1, 0x1DAAF); (0x1E000, 0x1E006);
    (0x1E008, 0x1E018); (0x1E01B, 0x1E021); (0x1E023, 0x1E024); (0x1E026, 0x1E02A); (0x1E130, 0x1E13D); (0x1E2AE, 0x1E2AE);
    (0x1E2EC, 0x1E2EF); (0x1E8D0, 0x1E8D6); (0x1E944, 0x1E94B); (0x1F3FB, 0x1F3FF); (0xE0001, 0xE0001); (0xE0020, 0xE007F);
    (0xE0100, 0xE01EF) ].

(** The simple lower-case mappings: [(first, last, step, delta)] maps
    [first], [first + step], ... up to [last] each to itself plus [delta]. *)
Definition tabla_lower : list (Z * Z * Z * Z) :=
  [
    (0x41, 0x5A, 1, 32); (0xC0, 0xD6, 1, 32); (0xD8, 0xDE, 1, 32); (0x100, 0x12E, 2, 1);
    (0x132, 0x136, 2, 1); (0x139, 0x147, 2, 1); (0x14A, 0x176, 2, 1); (0x178, 0x178, 1, -121);
    (0x179, 0x17D, 2, 1); (0x181, 0x181, 1, 210); (0x182, 0x184, 2, 1); (0x186, 0x186, 1, 206);
    (0x187, 0x187, 1, 1); (0x189, 0x18A, 1, 205); (0x18B, 0x18B, 1, 1); (0x18E, 0x18E, 1, 79);
    (0x18F, 0x18F, 1, 202); (0x190, 0x190, 1, 203); (0x191, 0x191, 1, 1); (0x193, 0x193, 1, 205);
    (0x194, 0x194, 1, 207); (0x196, 0x196, 1, 211); (0x197, 0x197, 1, 209); (0x198, 0x198, 1, 1);
    (0x19C, 0x19C, 1, 211); (0x19D, 0x19D, 1, 213); (0x19F, 0x19F, 1, 214); (0x1A0, 0x1A4, 2, 1);
    (0x1A6, 0x1A6, 1, 218); (0x1A7, 0x1A7, 1, 1); (0x1A9, 0x1A9, 1, 218); (0x1AC, 0x1AC, 1, 1);
    (0x1AE, 0x1AE, 1, 218); (0x1AF, 0x1AF, 1, 1); (0x1B1, 0x1B2, 1, 217); (0x1B3, 0x1B5, 2, 1);
    (0x1B7, 0x1B7, 1, 219); (0x1B8, 0x1B8, 1, 1); (0x1BC, 0x1BC, 1, 1); (0x1C4, 0x1C4, 1, 2);
    (0x1C5, 0x1C5, 1, 1); (0x1C7, 0x1C7, 1, 2); (0x1C8, 0x1C8, 1, 1); (0x1CA, 0x1CA, 1, 2);
    (0x1CB, 0x1DB, 2, 1); (0x1DE, 0x1EE, 2, 1); (0x1F1, 0x1F1, 1, 2); (0x1F2, 0x1F4, 2, 1);
    (0x1F6, 0x1F6, 1, -97); (0x1F7, 0x1F7, 1, -56); (0x1F8, 0x21E, 2, 1); (0x220, 0x220, 1, -130);
    (0x222, 0x232, 2, 1); (0x23A, 0x23A, 1, 10795); (0x23B, 0x23B, 1, 1); (0x23D, 0x23D, 1, -163);
    (0x23E, 0x23E, 1, 10792); (0x241, 0x241, 1, 1); (0x243, 0x243, 1, -195); (0x244, 0x244, 1, 69);
    (0x245, 0x245, 1, 71); (0x246, 0x24E, 2, 1); (0x370, 0x372, 2, 1); (0x376, 0x376, 1, 1);
    (0x37F, 0x37F, 1, 116); (0x386, 0x386, 1, 38); (0x388, 0x38A, 1, 37); (0x38C, 0x38C, 1, 64);
    (0x38E, 0x38F, 1, 63); (0x391, 0x3A1, 1, 32); (0x3A3, 0x3AB, 1, 32); (0x3CF, 0x3CF, 1, 8);
    (0x3D8, 0x3EE, 2, 1); (0x3F4, 0x3F4, 1, -60); (0x3F7, 0x3F7, 1, 1); (0x3F9, 0x3F9, 1, -7);
    (0x3FA, 0x3FA, 1, 1); (0x3FD, 0x3FF, 1, -130); (0x400, 0x40F, 1, 80); (0x410, 0x42F, 1, 32);
    (0x460, 0x480, 2, 1); (0x48A, 0x4BE, 2, 1); (0x4C0, 0x4C0, 1, 15); (0x4C1, 0x4CD, 2, 1);
    (0x4D0, 0x52E, 2, 1); (0x531, 0x556, 1, 48); (0x10A0, 0x10C5, 1, 7264); (0x10C7, 0x10C7, 1, 7264);
    (0x10CD, 0x10CD, 1, 7264); (0x13A0, 0x13EF, 1, 38864); (0x13F0, 0x13F5, 1, 8); (0x1C90, 0x1CBA, 1, -3008);
    (0x1CBD, 0x1CBF, 1, -3008); (0x1E00, 0x1E94, 2, 1); (0x1E9E, 0x1E9E, 1, -7615); (0x1EA0, 0x1EFE, 2, 1);
    (0x1F08, 0x1F0F, 1, -8); (0x1F18, 0x1F1D, 1, -8); (0x1F28, 0x1F2F, 1, -8); (0x1F38, 0x1F3F, 1, -8);
    (0x1F48, 0x1F4D, 1, -8); (0x1F59, 0x1F5F, 2, -8); (0x1F68, 0x1F6F, 1, -8); (0x1F88, 0x1F8F, 1, -8);
    (0x1F98, 0x1F9F, 1, -8); (0x1FA8, 0x1FAF, 1, -8); (0x1FB8, 0x1FB9, 1, -8); (0x1FBA, 0x1FBB, 1, -74);
    (0x1FBC, 0x1FBC, 1, -9); (0x1FC8, 0x1FCB, 1, -86); (0x1FCC, 0x1FCC, 1, -9); (0x1FD8, 0x1FD9, 1, -8);
    (0x1FDA, 0x1FDB, 1, -100); (0x1FE8, 0x1FE9, 1, -8); (0x1FEA, 0x1FEB, 1, -112); (0x1FEC, 0x1FEC, 1, -7);
    (0x1FF8, 0x1FF9, 1, -128); (0x1FFA, 0x1FFB, 1, -126); (0x1FFC, 0x1FFC, 1, -9); (0x2126, 0x2126, 1, -7517);
    (0x212A, 0x212A, 1, -8383); (0x212B, 0x212B, 1, -8262); (0x2132, 0x2132, 1, 28); (0x2160, 0x216F, 1, 16);
    (0x2183, 0x2183, 1, 1); (0x24B6, 0x24CF, 1, 26); (0x2C00, 0x2C2F, 1, 48); (0x2C60, 0x2C60, 1, 1);
    (0x2C62, 0x2C62, 1, -10743); (0x2C63, 0x2C63, 1, -3814); (0x2C64, 0x2C64, 1, -10727); (0x2C67, 0x2C6B, 2, 1);
    (0x2C6D, 0x2C6D, 1, -10780); (0x2C6E, 0x2C6E, 1, -10749); (0x2C6F, 0x2C6F, 1, -10783); (0x2C70, 0x2C70, 1, -10782);
    (0x2C72, 0x2C72, 1, 1); (0x2C75, 0x2C75, 1, 1); (0x2C7E, 0x2C7F, 1, -10815); (0x2C80, 0x2CE2, 2, 1);
    (0x2CEB, 0x2CED, 2, 1); (0x2CF2, 0x2CF2, 1, 1); (0xA640, 0xA66C, 2, 1); (0xA680, 0xA69A, 2, 1);
    (0xA722, 0xA72E, 2, 1); (0xA732, 0xA76E, 2, 1); (0xA779, 0xA77B, 2, 1); (0xA77D, 0xA77D, 1, -35332);
    (0xA77E, 0xA786, 2, 1); (0xA78B, 0xA78B, 1, 1); (0xA78D, 0xA78D, 1, -42280); (0xA790, 0xA792, 2, 1);
    (0xA796, 0xA7A8, 2, 1); (0xA7AA, 0xA7AA, 1, -42308); (0xA7AB, 0xA7AB, 1, -42319); (0xA7AC, 0xA7AC, 1, -42315);
    (0xA7AD, 0xA7AD, 1, -42305); (0xA7AE, 0xA7AE, 1, -42308); (0xA7B0, 0xA7B0, 1, -42258); (0xA7B1, 0xA7B1, 1, -42282);
    (0xA7B2, 0xA7B2, 1, -42261); (0xA7B3, 0xA7B3, 1, 928); (0xA7B4, 0xA7C2, 2, 1); (0xA7C4, 0xA7C4, 1, -48);
    (0xA7C5, 0xA7C5, 1, -42307); (0xA7C6, 0xA7C6, 1, -35384); (0xA7C7, 0xA7C9, 2, 1); (0xA7D0, 0xA7D0, 1, 1);
    (0xA7D6, 0xA7D8, 2, 1); (0xA7F5, 0xA7F5, 1, 1); (0xFF21, 0xFF3A, 1, 32); (0x10400, 0x10427, 1, 40);
    (0x104B0, 0x104D3, 1, 40); (0x10570, 0x1057A, 1, 39); (0x1057C, 0x1058A, 1, 39); (0x1058C, 0x10592, 1, 39);
    (0x10594, 0x10595, 1, 39); (0x10C80, 0x10CB2, 1, 64); (0x118A0, 0x118BF, 1, 32); (0x16E40, 0x16E5F, 1, 32);
    (0x1E900, 0x1E921, 1, 34) ].

Definition isspace (c : Z) : bool := existsb (Z.eqb c) espacios.

Definition en_rangos (rs : list (Z * Z)) (c : Z) : bool :=
  existsb (λ '(a, b), (a <=? c) && (c <=? b)) rs.

Definition is_cased (c : Z) : bool := en_rangos rangos_cased c.

Definition is_case_ignorable (c : Z) : bool := en_rangos rangos_case_ignorable c.

Fixpoint buscar_lower (t : list (Z * Z * Z * Z)) (c : Z) : option Z :=
  match t with
  | [] => None
  | (a, b, paso, delta) :: t' =>
      if (a <=? c) && (c <=? b) && ((c - a) mod paso =? 0) then Some delta
      else buscar_lower t' c
  end.

(** The full lower-case mapping of one character; U+0130 is the one
    character that gives two. *)
Definition to_lower_full (c : Z) : list Z :=
  if c =? 0x130 then [0x69; 0x307]
  else match buscar_lower tabla_lower c with
       | Some delta => [c + delta]
       | None => [c]
       end.

(** The second half of the Final_Sigma test: after the sigma, skipping
    case-ignorable characters, the string ends or a character that is not
    cased comes. *)
Fixpoint sin_cased_despues (r : list Z) : bool :=
  match r with
  | [] => true
  | c :: r' => if is_case_ignorable c then sin_cased_despues r' else negb (is_cased c)
  end.

(** [str.lower()], character by character; [antes] tells whether, skipping
    case-ignorable characters backwards, a cased character comes before the
    current one.  A capital sigma becomes a final sigma in the Final_Sigma
    context and a small sigma elsewhere. *)
Fixpoint lower_desde (antes : bool) (s : list Z) : list Z :=
  match s with
  | [] => []
  | c :: r =>
      (if c =? 0x3A3
       then [if antes && sin_cased_despues r then 0x3C2 else 0x3C3]
       else to_lower_full c)
      ++ lower_desde (if is_case_ignorable c then antes else is_cased c) r
  end.

Definition lower (s : list Z) : list Z := lower_desde false s.

Fixpoint lstrip (s : list Z) : list Z :=
  match s with
  | [] => []
  | c :: r => if isspace c then lstrip r else s
  end.

Fixpoint rstrip (s : list Z) : list Z :=
  match s with
  | [] => []
  | c :: r =>
      match rstrip r with
      | [] => if isspace c then [] else [c]
      | r' => c :: r'
      end
  end.

(** [str.strip()] *)
Definition strip (s : list Z) : list Z := rstrip (lstrip s).

(** UTF-8, one character. *)
Definition utf8_punto (c : Z) : list Z :=
  if c <? 0x80 then [c]
  else if c <? 0x800 then [0xC0 + c / 64; 0x80 + c mod 64]
  else if c <? 0x10000 then
    [0xE0 + c / 4096; 0x80 + (c / 64) mod 64; 0x80 + c mod 64]
  else
    [0xF0 + c / 262144; 0x80 + (c / 4096) mod 64; 0x80 + (c / 64) mod 64;
     0x80 + c mod 64].

Definition bytes_utf8 (s : list Z) : list Z := concat (map utf8_punto s).

Definition continuacion (b : Z) : bool := (0x80 <=? b) && (b <? 0xC0).

Definition es_surrogate (c : Z) : bool := (0xD800 <=? c) && (c <=? 0xDFFF).

(** The characters of a UTF-8 byte sequence, read as [bytes.decode] reads
    them: a sequence counts when it is the shortest encoding of a code point
    that is not a surrogate.  A byte that starts no such sequence is kept as
    it is; a byte sequence holding one is the encoding of no [str]. *)
Fixpoint puntos_bytes (bs : list Z) : list Z :=
  match bs with
  | [] => []
  | b0 :: r0 =>
      if b0 <? 0x80 then b0 :: puntos_bytes r0
      else
        match r0 with
        | [] => b0 :: puntos_bytes r0
        | b1 :: r1 =>
            let v2 := (b0 - 0xC0) * 64 + (b1 - 0x80) in
            if (0xC0 <=? b0) && (b0 <? 0xE0) && continuacion b1 && (0x80 <=? v2)
            then v2 :: puntos_bytes r1
            else
              match r1 with
              | [] => b0 :: puntos_bytes r0
              | b2 :: r2 =>
                  let v3 := (b0 - 0xE0) * 4096 + (b1 - 0x80) * 64 + (b2 - 0x80) in
                  if (0xE0 <=? b0) && (b0 <? 0xF0) && continuacion b1 && continuacion b2
                     && (0x800 <=? v3) && negb (es_surrogate v3)
                  then v3 :: puntos_bytes r2
                  else
                    match r2 with
                    | [] => b0 :: puntos_bytes r0
                    | b3 :: r3 =>
                        let v4 := (b0 - 0xF0) * 262144 + (b1 - 0x80) * 4096
                                  + (b2 - 0x80) * 64 + (b3 - 0x80) in
                        if (0xF0 <=? b0) && (b0 <? 0xF8) && continuacion b1
                           && continuacion b2 && continuacion b3
                           && (0x10000 <=? v4) && (v4 <=? 0x10FFFF)
                        then v4 :: puntos_bytes r3
                        else b0 :: puntos_bytes r0
                    end
              end
        end
  end.



End Unicode.

(** The [str] with the given characters, and the characters of a [str]. *)
Definition utf8 (s : list Z) : string :=
  string_of_list_ascii
    (map (λ b, ascii_of_nat (Z.to_nat b)) (Unicode.bytes_utf8 s)).

Definition puntos (s : string) : list Z := Unicode.puntos_bytes (MD5.encode s).

(** [str.lower()] *)
Definition lower (s : string) : string := utf8 (Unicode.lower (puntos s)).

(** [str.strip()] *)
Definition strip (s : string) : string := utf8 (Unicode.strip (puntos s)).

(** [s.startswith(p)] *)
Definition startswith (s p : string) : bool := String.prefix p s.

(** [p in s] on strings. *)
Fixpoint contiene (s p : string) : bool :=
  String.prefix p s ||
  match s with
  | EmptyString => false
  | String _ s' => contiene s' p
  end.

(** [str(n)] of a length. *)
Definition str_nat (n : nat) : string := pretty n.

(** ** Data model *)

(** One listing, the dict built in [obtener_ofertas]. *)
Record oferta := Oferta {
  titulo : string;
  empresa : string;
  ubicacion : string;
  enlace : string;
  fecha_deteccion : string;
  hash : string
}.

(** A value as [json.load] returns it.  A JSON object becomes a dict, kept
    here as the list of its items in order (keys are unique in a dict). *)
Inductive json :=
  | JNull
  | JBool (b : bool)
  | JInt (n : Z)
  | JFloat (lit : string)
  | JStr (s : string)
  | JList (l : list json)
  | JDict (d : list (string * json)).

Fixpoint dict_get (d : list (string * json)) (k : string) : option json :=
  match d with
  | [] => None
  | (k', v) :: d' => if String.eqb k' k then Some v else dict_get d' k
  end.

(** What [json.dump] writes for one listing and [json.load] reads back. *)
Definition oferta_json (o : oferta) : json :=
  JDict [ ("titulo", JStr (titulo o)); ("empresa", JStr (empresa o));
          ("ubicacion", JStr (ubicacion o)); ("enlace", JStr (enlace o));
          ("fecha_deteccion", JStr (fecha_deteccion o)); ("hash", JStr (hash o)) ].

Definition estado_json (empleos : list oferta) : json :=
  JList (map oferta_json empleos).

(** A BeautifulSoup tag, as far as the program looks into one. *)
Record Tag := { tag_name : string; tag_attrs : list (string * string) }.

Fixpoint attr_get (attrs : list (string * string)) (k : string) (default : string) : string :=
  match attrs with
  | [] => default
  | (k', v) :: attrs' => if String.eqb k' k then v else attr_get attrs' k default
  end.

(** ** Effects: events and exceptions *)

Inductive excepcion :=
  | TypeError (msg : string)
  | KeyError (clave : string)
  | RequestException (msg : string)
  | OtraExcepcion (msg : string).

(** [str(e)] as the [print(f"...{e}")] lines show it. *)
Definition str_exc (e : excepcion) : string :=
  match e with
  | TypeError msg | RequestException msg | OtraExcepcion msg => msg
  | KeyError clave => "'" ++ clave ++ "'"
  end.

Inductive evento :=
  | Print (linea : string)
  | HttpGet (url : string)
  | HttpPost (url chat_id text : string)
  | JsonDump (archivo : string) (empleos : list oferta)
  | JsonDumpFallido (archivo : string).

(** A computation: the events it emitted, in order, and either the
    exception that ended it or its value. *)
Definition Prog (A : Type) : Type := list evento * (excepcion + A).

Definition eventos {A} (m : Prog A) : list evento := fst m.
Definition resultado {A} (m : Prog A) : excepcion + A := snd m.

#[global] Instance Prog_ret : MRet Prog := λ A x, ([], inr x).

#[global] Instance Prog_bind : MBind Prog := λ A B f m,
  match m with
  | (ev, inl e) => (ev, inl e)
  | (ev, inr x) => let '(ev', r) := f x in ((ev ++ ev')%list, r)
  end.

Definition lanzar {A} (e : excepcion) : Prog A := ([], inl e).

Definition emitir (e : evento) : Prog unit := ([e], inr tt).

Definition print (linea : string) : Prog unit := emitir (Print linea).

(** [try: m  except Exception as e: h e] *)
Definition atrapar {A} (m : Prog A) (h : excepcion → Prog A) : Prog A :=
  match m with
  | (ev, inl e) => let '(ev', r) := h e in ((ev ++ ev')%list, r)
  | (ev, inr x) => (ev, inr x)
  end.

(** A run that ends without an exception. *)
Definition termina {A} (m : Prog A) : bool :=
  match resultado m with inl _ => false | inr _ => true end.

(** The events that reach Telegram or the state file. *)
Definition es_externo (e : evento) : bool :=
  match e with
  | HttpPost _ _ _ | JsonDump _ _ | JsonDumpFallido _ => true
  | Print _ | HttpGet _ => false
  end.

(** A computation that ends without an exception and neither notifies nor
    touches the state file. *)
Definition calla {A} (m : Prog A) : Prop :=
  termina m = true ∧ Forall (λ e, es_externo e = false) (eventos m).

(** ** The environment of one run *)

(** What opening and [json.load]ing the state file gives. *)
Inductive lectura_estado :=
  | Ausente                      (* [os.path.exists] is false *)
  | Ilegible (e : excepcion)     (* [open] or [json.load] raised *)
  | Cargado (v : json).          (* [json.load] returned [v] *)

(** One container of the page: what each query of the loop body finds in it,
    a found tag being given by its [get_text(strip=True)]. *)
Record consultas := {
  q_encabezado : option string;  (* [find(['h2', 'h3', 'h4', 'h5'])] *)
  q_a_titulo : option string;    (* [find('a', class_='titulo')] *)
  q_strong : option string;      (* [find('strong')] *)
  q_empresa : option string;     (* [find(class_=['empresa', ...])] *)
  q_ubicacion : option string;   (* [find(class_=['ubicacion', ...])] *)
  q_enlace : option Tag;         (* [find('a', href=True)] *)
  q_ahora : string               (* [datetime.now().isoformat()] *)
}.

Inductive elemento :=
  | Elemento (q : consultas)
  | ElementoRoto (e : excepcion).  (* a query on it raises *)

(** The parsed page: what each of the five container selectors finds. *)
Record sopa := {
  div_oferta : list elemento;
  div_job_item : list elemento;
  article : list elemento;
  div_card : list elemento;
  li_list_item : list elemento
}.

Inductive respuesta :=
  | Falla (e : excepcion)   (* [get], [raise_for_status] or the parser raised *)
  | Pagina (s : sopa).

Record entorno := {
  TELEGRAM_BOT_TOKEN : string;
  TELEGRAM_CHAT_ID : string;
  EMAIL_DESTINATARIO : string;
  env_estado : lectura_estado;
  env_respuesta : respuesta;
  env_post : option excepcion;       (* [Some e]: the POST raised [e] *)
  env_escritura : option excepcion;  (* [Some e]: writing the state raised [e] *)
  env_ahora_ejecutar : string;       (* [strftime] in [ejecutar] *)
  env_ahora_resumen : string         (* [strftime] in [generar_resumen] *)
}.

(** ** The class *)

Record MonitorEmpleoCloud := {
  url_base : string;
  url_busqueda : string;
  archivo_estado : string;
  telegram_bot_token : string;
  telegram_chat_id : string;
  email_destinatario : string;
  empleos_anteriores : json
}.

(** [a or b] on values that are falsy exactly when absent / empty. *)
Definition or_opcion {A} (a b : option A) : option A :=
  match a with Some _ => a | None => b end.

Definition or_lista {A} (a b : list A) : list A :=
  match a with [] => b | _ :: _ => a end.

Definition cargar_estado (env : entorno) : Prog json :=
  atrapar
    (match env_estado env with
     | Ausente => mret (JList [])
     | Ilegible e => lanzar e
     | Cargado v => mret v
     end)
    (λ e, print ("Error al cargar estado: " ++ str_exc e);; mret (JList [])).

Definition __init__ (env : entorno) : Prog MonitorEmpleoCloud :=
  let url_base := "https://www.santafe.gob.ar/simtyss/portalempleo/" in
  empleos_anteriores ← cargar_estado env;
  mret {| url_base := url_base;
          url_busqueda := url_base ++ "ofertas/";
          archivo_estado := "empleos_anteriores.json";
          telegram_bot_token := TELEGRAM_BOT_TOKEN env;
          telegram_chat_id := TELEGRAM_CHAT_ID env;
          email_destinatario := EMAIL_DESTINATARIO env;
          empleos_anteriores := empleos_anteriores |}.

Definition guardar_estado (self : MonitorEmpleoCloud) (env : entorno)
    (empleos : list oferta) : Prog unit :=
  atrapar
    (match env_escritura env with
     | Some e => emitir (JsonDumpFallido (archivo_estado self));; lanzar e
     | None => emitir (JsonDump (archivo_estado self) empleos)
     end;;
     print ("Estado guardado: " ++ str_nat (length empleos) ++ " ofertas"))
    (λ e, print ("Error al guardar estado: " ++ str_exc e)).

Definition construir_enlace (self : MonitorEmpleoCloud)
    (elemento_enlace : option Tag) : string :=
  match elemento_enlace with
  | None => url_base self
  | Some a =>
      let href := attr_get (tag_attrs a) "href" "" in
      if startswith href "http" then href
      else if startswith href "/" then "https://www.santafe.gob.ar" ++ href
      else url_base self ++ href
  end.

(** On a [str] with a lone surrogate [encode()] raises; such a [str] is none
    of the strings modelled (see the conventions above). *)
Definition calcular_hash (titulo empresa : string) : string :=
  let texto := strip (lower (titulo ++ empresa)) in
  MD5.hexdigest texto.

(** The body of the [for elemento in elementos_ofertas] loop, with its
    [try]/[except]; [ofertas] is the list being appended to. *)
Definition procesar_elemento (self : MonitorEmpleoCloud) (ofertas : list oferta)
    (el : elemento) : Prog (list oferta) :=
  atrapar
    (match el with
     | ElementoRoto e => lanzar e
     | Elemento q =>
         let titulo := or_opcion (q_encabezado q) (or_opcion (q_a_titulo q) (q_strong q)) in
         match titulo with
         | Some titulo_texto =>
             let empresa_texto := default "Gobierno de Santa Fe" (q_empresa q) in
             let oferta :=
               {| titulo := titulo_texto;
                  empresa := empresa_texto;
                  ubicacion := default "Santa Fe" (q_ubicacion q);
                  enlace := construir_enlace self (q_enlace q);
                  fecha_deteccion := q_ahora q;
                  hash := calcular_hash titulo_texto empresa_texto |} in
             mret (ofertas ++ [oferta])%list
         | None => mret ofertas
         end
     end)
    (λ e, print ("Error procesando elemento: " ++ str_exc e);; mret ofertas).

Fixpoint procesar_elementos (self : MonitorEmpleoCloud) (ofertas : list oferta)
    (els : list elemento) : Prog (list oferta) :=
  match els with
  | [] => mret ofertas
  | el :: els' =>
      ofertas' ← procesar_elemento self ofertas el;
      procesar_elementos self ofertas' els'
  end.

Definition obtener_ofertas (self : MonitorEmpleoCloud) (env : entorno) : Prog (list oferta) :=
  let ofertas := [] in
  atrapar
    (print ("Consultando: " ++ url_busqueda self);;
     emitir (HttpGet (url_busqueda self));;
     soup ← match env_respuesta env with
            | Falla e => lanzar e
            | Pagina s => mret s
            end;
     let elementos_ofertas :=
       or_lista (div_oferta soup) (or_lista (div_job_item soup)
         (or_lista (article soup) (or_lista (div_card soup) (li_list_item soup)))) in
     print ("Elementos encontrados: " ++ str_nat (length elementos_ofertas));;
     ofertas ← procesar_elementos self ofertas elementos_ofertas;
     print ("Ofertas procesadas: " ++ str_nat (length ofertas));;
     mret ofertas)
    (λ e,
       match e with
       | RequestException _ => print ("Error en la petición HTTP: " ++ str_exc e)
       | _ => print ("Error inesperado: " ++ str_exc e)
       end;;
       mret ofertas).

(** *** The diff *)

(** [for emp in v]: the items a Python value yields when iterated. *)
Definition iterar (v : json) : Prog (list json) :=
  match v with
  | JList l => mret l
  | JDict d => mret (map (λ kv, JStr (fst kv)) d)
  | JStr s =>
      (* one str per character; each of them fails the subscript alike *)
      mret (map (λ c, JStr (String c EmptyString)) (list_ascii_of_string s))
  | JNull => lanzar (TypeError "'NoneType' object is not iterable")
  | JBool _ => lanzar (TypeError "'bool' object is not iterable")
  | JInt _ => lanzar (TypeError "'int' object is not iterable")
  | JFloat _ => lanzar (TypeError "'float' object is not iterable")
  end.

(** [emp['hash']] *)
Definition subscript_hash (emp : json) : Prog json :=
  match emp with
  | JDict d =>
      match dict_get d "hash" with
      | Some v => mret v
      | None => lanzar (KeyError "hash")
      end
  | JList _ => lanzar (TypeError "list indices must be integers or slices, not str")
  | JStr _ => lanzar (TypeError "string indices must be integers, not 'str'")
  | JNull => lanzar (TypeError "'NoneType' object is not subscriptable")
  | JBool _ => lanzar (TypeError "'bool' object is not subscriptable")
  | JInt _ => lanzar (TypeError "'int' object is not subscriptable")
  | JFloat _ => lanzar (TypeError "'float' object is not subscriptable")
  end.

(** Adding a value to a set.  Lists and dicts are unhashable.  Of the set
    only membership of a [str] is ever asked ([o['hash']] is a hexdigest),
    and a [str] equals no [None], [bool] or number: the set is kept as the
    set of its [str] members. *)
Definition set_add (hs : gset string) (v : json) : Prog (gset string) :=
  match v with
  | JStr s => mret ({[ s ]} ∪ hs)
  | JList _ => lanzar (TypeError "unhashable type: 'list'")
  | JDict _ => lanzar (TypeError "unhashable type: 'dict'")
  | JNull | JBool _ | JInt _ | JFloat _ => mret hs
  end.

(** [{emp['hash'] for emp in emps}], item by item. *)
Fixpoint set_hashes (hs : gset string) (emps : list json) : Prog (gset string) :=
  match emps with
  | [] => mret hs
  | emp :: emps' =>
      v ← subscript_hash emp;
      hs' ← set_add hs v;
      set_hashes hs' emps'
  end.

Definition detectar_nuevas_ofertas (self : MonitorEmpleoCloud)
    (ofertas_actuales : list oferta) : Prog (list oferta) :=
  emps ← iterar (empleos_anteriores self);
  hashes_anteriores ← set_hashes ∅ emps;
  let nuevas := filter (λ o, hash o ∉ hashes_anteriores) ofertas_actuales in
  print ("Nuevas ofertas detectadas: " ++ str_nat (length nuevas));;
  mret nuevas.

(** *** The Telegram digest *)

(** Concatenation of a list of strings. *)
Definition unir (l : list string) : string := foldr String.append EmptyString l.

(** [enumerate(l, start)] *)
Definition enumerate {A} (l : list A) (start : nat) : list (nat * A) :=
  zip (seq start (length l)) l.

(** The four lines the loop of [enviar_telegram] appends for one listing. *)
Definition entrada (i : nat) (o : oferta) : string :=
  (str_nat i ++ ". *" ++ titulo o ++ "*" ++ nl)
  ++ ("   📍 " ++ ubicacion o ++ nl)
  ++ ("   🏢 " ++ empresa o ++ nl)
  ++ ("   🔗 [Ver oferta](" ++ enlace o ++ ")" ++ nl ++ nl).

(** The value of [mensaje] when [enviar_telegram] posts it. *)
Definition mensaje_telegram (nuevas_ofertas : list oferta) : string :=
  let mensaje := "🔔 *Nuevas Ofertas de Empleo - Santa Fe*" ++ nl in
  let mensaje := mensaje ++ "Se detectaron " ++ str_nat (length nuevas_ofertas)
                         ++ " nueva(s) oferta(s)" ++ nl ++ nl in
  let mensaje :=
    fold_left (λ mensaje '(i, o), mensaje ++ entrada i o)
              (enumerate (take 10 nuevas_ofertas) 1) mensaje in
  if (10 <? length nuevas_ofertas)%nat
  then mensaje ++ "... y " ++ str_nat (length nuevas_ofertas - 10) ++ " ofertas más." ++ nl
  else mensaje.

Definition enviar_telegram (self : MonitorEmpleoCloud) (env : entorno)
    (nuevas_ofertas : list oferta) : Prog bool :=
  if String.eqb (telegram_bot_token self) "" || String.eqb (telegram_chat_id self) ""
  then print "Telegram no configurado. Saltando notificación.";; mret false
  else
    atrapar
      (let mensaje := mensaje_telegram nuevas_ofertas in
       let url := "https://api.telegram.org/bot" ++ telegram_bot_token self ++ "/sendMessage" in
       emitir (HttpPost url (telegram_chat_id self) mensaje);;
       match env_post env with
       | Some e => lanzar e
       | None => mret tt
       end;;
       print "✓ Notificación Telegram enviada exitosamente";;
       mret true)
      (λ e, print ("Error al enviar Telegram: " ++ str_exc e);; mret false).

(** *** Summary and run controller *)

(** [len(s)] of a str: its characters, that is the bytes that do not
    continue a multi-byte character. *)
Definition len_str (s : string) : nat :=
  length (filter (λ c, negb ((128 <=? nat_of_ascii c)%nat && (nat_of_ascii c <? 192)%nat) = true)
                 (list_ascii_of_string s)).

(** [len(v)] *)
Definition len (v : json) : Prog nat :=
  match v with
  | JList l => mret (length l)
  | JDict d => mret (length d)
  | JStr s => mret (len_str s)
  | JNull => lanzar (TypeError "object of type 'NoneType' has no len()")
  | JBool _ => lanzar (TypeError "object of type 'bool' has no len()")
  | JInt _ => lanzar (TypeError "object of type 'int' has no len()")
  | JFloat _ => lanzar (TypeError "object of type 'float' has no len()")
  end.

(** [s * n] *)
Fixpoint repetir (s : string) (n : nat) : string :=
  match n with
  | O => EmptyString
  | S n' => s ++ repetir s n'
  end.

Fixpoint imprimir_ofertas (l : list (nat * oferta)) : Prog unit :=
  match l with
  | [] => mret tt
  | (i, oferta) :: l' =>
      print (nl ++ str_nat i ++ ". " ++ titulo oferta);;
      print ("   Empresa: " ++ empresa oferta);;
      print ("   Ubicación: " ++ ubicacion oferta);;
      print ("   Link: " ++ enlace oferta);;
      imprimir_ofertas l'
  end.

Definition generar_resumen (self : MonitorEmpleoCloud) (env : entorno)
    (nuevas_ofertas ofertas_totales : list oferta) : Prog unit :=
  print (nl ++ repetir "=" 70);;
  print ("RESUMEN DE MONITOREO - " ++ env_ahora_resumen env);;
  print (repetir "=" 70);;
  print ("Ofertas totales en el portal: " ++ str_nat (length ofertas_totales));;
  print ("Ofertas nuevas detectadas: " ++ str_nat (length nuevas_ofertas));;
  conocidas ← len (empleos_anteriores self);
  print ("Ofertas ya conocidas: " ++ str_nat conocidas);;
  match nuevas_ofertas with
  | _ :: _ =>
      print (nl ++ "NUEVAS OFERTAS:");;
      imprimir_ofertas (enumerate nuevas_ofertas 1)
  | [] => print (nl ++ "No se detectaron nuevas ofertas en esta ejecución.")
  end;;
  print (nl ++ repetir "=" 70 ++ nl).

(** The warning of an empty fetch. *)
Definition aviso_sin_ofertas : string :=
  "⚠️  No se pudieron obtener ofertas. Verificar conectividad o estructura del sitio.".

Definition ejecutar (self : MonitorEmpleoCloud) (env : entorno) : Prog unit :=
  print "Iniciando verificación de ofertas de empleo...";;
  print ("Fecha/Hora: " ++ env_ahora_ejecutar env);;
  ofertas_actuales ← obtener_ofertas self env;
  match ofertas_actuales with
  | [] => print aviso_sin_ofertas
  | _ :: _ =>
      nuevas_ofertas ← detectar_nuevas_ofertas self ofertas_actuales;
      generar_resumen self env nuevas_ofertas ofertas_actuales;;
      match nuevas_ofertas with
      | _ :: _ => enviar_telegram self env nuevas_ofertas;; mret tt
      | [] => mret tt
      end;;
      guardar_estado self env ofertas_actuales;;
      print "✓ Verificación completada"
  end.

(** [if __name__ == "__main__"]: build the monitor, run it once. *)
Definition main (env : entorno) : Prog unit :=
  monitor ← __init__ env;
  ejecutar monitor env.

(** ** Concrete inputs used by the examples below *)

Module Ejemplos.

Definition chef : oferta :=
  {| titulo := "Chef"; empresa := "Acme"; ubicacion := "Rosario";
     enlace := "https://www.santafe.gob.ar/ofertas/5";
     fecha_deteccion := "2024-05-01T08:00:00";
     hash := calcular_hash "Chef" "Acme" |}.

Definition mozo : oferta :=
  {| titulo := "Mozo"; empresa := "Bar"; ubicacion := "Santa Fe";
     enlace := "https://www.santafe.gob.ar/ofertas/6";
     fecha_deteccion := "2024-05-01T08:00:01";
     hash := calcular_hash "Mozo" "Bar" |}.

(** The same listing as [mozo], seen a second time on the page. *)
Definition mozo_bis : oferta :=
  {| titulo := "MOZO"; empresa := "Bar"; ubicacion := "Rafaela";
     enlace := "https://www.santafe.gob.ar/ofertas/7";
     fecha_deteccion := "2024-05-01T08:00:02";
     hash := calcular_hash "MOZO" "Bar" |}.

(** A monitor whose loaded state is [anteriores]. *)
Definition monitor (anteriores : json) : MonitorEmpleoCloud :=
  {| url_base := "https://www.santafe.gob.ar/simtyss/portalempleo/";
     url_busqueda := "https://www.santafe.gob.ar/simtyss/portalempleo/ofertas/";
     archivo_estado := "empleos_anteriores.json";
     telegram_bot_token := "123:abc";
     telegram_chat_id := "42";
     email_destinatario := "";
     empleos_anteriores := anteriores |}.

(** [<a href=...>] *)
Definition ancla (href : string) : Tag :=
  {| tag_name := "a"; tag_attrs := [("href", href)] |}.

Definition contenedor (titulo : string) : elemento :=
  Elemento {| q_encabezado := Some titulo; q_a_titulo := None; q_strong := None;
              q_empresa := None; q_ubicacion := None; q_enlace := None;
              q_ahora := "2024-05-01T08:00:00" |}.

(** A run: the state file holds [estado], the portal answers [resp]. *)
Definition entorno_de (estado : lectura_estado) (resp : respuesta) : entorno :=
  {| TELEGRAM_BOT_TOKEN := "123:abc"; TELEGRAM_CHAT_ID := "42";
     EMAIL_DESTINATARIO := "";
     env_estado := estado; env_respuesta := resp;
     env_post := None; env_escritura := None;
     env_ahora_ejecutar := "2024-05-01 08:00:00";
     env_ahora_resumen := "2024-05-01 08:00:03" |}.

Definition pagina (els : list elemento) : respuesta :=
  Pagina {| div_oferta := els; div_job_item := []; article := [];
            div_card := []; li_list_item := [] |}.

(** The record the extraction gives for [contenedor titulo]. *)
Definition del_portal (titulo : string) : oferta :=
  {| titulo := titulo; empresa := "Gobierno de Santa Fe"; ubicacion := "Santa Fe";
     enlace := "https://www.santafe.gob.ar/simtyss/portalempleo/";
     fecha_deteccion := "2024-05-01T08:00:00";
     hash := calcular_hash titulo "Gobierno de Santa Fe" |}.

End Ejemplos.

(** ** Predicates on events and characters used by the statements *)

Definition es_get (e : evento) : bool :=
  match e with HttpGet _ => true | _ => false end.

Definition es_post (e : evento) : bool :=
  match e with HttpPost _ _ _ => true | _ => false end.

(** The test of [enviar_telegram] for going on to the POST. *)
Definition configurado (self : MonitorEmpleoCloud) : bool :=
  negb (String.eqb (telegram_bot_token self) "" || String.eqb (telegram_chat_id self) "").

(** The container selectors of [obtener_ofertas], in the order the chain of
    [or] tries them. *)
Definition selectores : list (sopa → list elemento) :=
  [div_oferta; div_job_item; article; div_card; li_list_item].

Definition es_print (e : evento) : bool :=
  match e with Print _ => true | _ => false end.

(** How many events of a run satisfy a test. *)
Definition cuenta {A} (P : evento → bool) (m : Prog A) : nat :=
  length (filter (λ e, P e = true) (eventos m)).

(** A write of the state file, carried through or not. *)
Definition es_escritura (e : evento) : bool :=
  match e with JsonDump _ _ | JsonDumpFallido _ => true | _ => false end.

(** * Properties *)

(** ** MD5 test vectors (RFC 1321, and one input of two blocks) *)

Example md5_vacio : MD5.hexdigest "" = "d41d8cd98f00b204e9800998ecf8427e".
Proof. vm_compute. reflexivity. Qed.

Example md5_abc : MD5.hexdigest "abc" = "900150983cd24fb0d6963f7d28e17f72".
Proof. vm_compute. reflexivity. Qed.

Example md5_dos_bloques :
  MD5.hexdigest
    "abcabcabcabcabcabcabcabcabcabcabcabcabcabcabcabcabcabcabcabcabcabcabcabcabcabcabcabcabcabc"
  = "daa54284568d250dde2cc8578c2e116a".
Proof. vm_compute. reflexivity. Qed.

(** ** Strings: characters and their UTF-8 encoding *)

Section caracteres.
Local Open Scope Z_scope.
Import Unicode.
Implicit Types (c b : Z) (s r ws : list Z).









End caracteres.

(** ** Strings: [lower] and [strip] *)

Section minusculas.
Local Open Scope Z_scope.
Local Open Scope list_scope.
Import Unicode.
Implicit Types (c : Z) (s r ws : list Z) (antes : bool).
















Lemma lstrip_Forall (P : Z → Prop) s : Forall P s → Forall P (lstrip s).
Proof.
  induction 1 as [|c s Hc Hs IH]; simpl; [done |].
  destruct (isspace c); [done | by constructor].
Qed.

Lemma rstrip_Forall (P : Z → Prop) s : Forall P s → Forall P (rstrip s).
Proof.
  induction 1 as [|c s Hc Hs IH]; simpl; [done |].
  destruct (rstrip s); [destruct (isspace c); by repeat constructor | by constructor].
Qed.

End minusculas.

(** ** Test vectors of [lower] and [strip] (CPython 3.11) *)

Example lower_cafe : lower "CAFÉ" = "café" ∧ lower "ENFERMERÍA" = "enfermería".
Proof. split; vm_compute; reflexivity. Qed.

Example lower_sigma_final :
  lower "ΑΣ" = "ας" ∧ lower "ΑΣΑ" = "ασα" ∧ lower "Σ" = "σ" ∧ lower "ΑΣ'" = "ας'"
  ∧ lower "İ" = utf8 [0x69; 0x307]%Z.
Proof. repeat split; vm_compute; reflexivity. Qed.

Example strip_espacios_unicode :
  strip (utf8 [0xA0; 0x2003; 0x20; 0x61; 0x20; 0x62; 0x20; 0x3000; 0x85; 0x0A]%Z) = "a b".
Proof. vm_compute. reflexivity. Qed.

(** ** Fingerprint *)

Section huella.
Implicit Types (t e ws : list Z).



End huella.




(** ** Computations *)

#[local] Arguments mbind : simpl never.
#[local] Arguments mret : simpl never.

Lemma bind_inr {A B} (m : Prog A) (f : A → Prog B) ev x :
  m = (ev, inr x) →
  m ≫= f = ((ev ++ eventos (f x))%list, resultado (f x)).
Proof. intros ->. unfold mbind, Prog_bind; simpl. by destruct (f x). Qed.

Lemma bind_inl {A B} (m : Prog A) (f : A → Prog B) ev e :
  m = (ev, inl e) → m ≫= f = (ev, inl e).
Proof. by intros ->. Qed.

Lemma bind_mret {A B} (x : A) (f : A → Prog B) : mret x ≫= f = f x.
Proof. unfold mret, Prog_ret, mbind, Prog_bind. by destruct (f x). Qed.

Lemma bind_print {B} linea (f : unit → Prog B) :
  print linea ≫= f = (Print linea :: eventos (f tt), resultado (f tt)).
Proof. unfold print, emitir, mbind, Prog_bind. by destruct (f tt). Qed.

(** ** The diff against a state the program wrote *)

Section diff.
Context (self : MonitorEmpleoCloud).
Implicit Types (previous current nuevas : list oferta) (o : oferta).

Lemma set_hashes_estado previous (hs : gset string) :
  set_hashes hs (map oferta_json previous)
  = mret (list_to_set (hash <$> previous) ∪ hs).
Proof.
  revert hs. induction previous as [|p previous IH]; intros hs; simpl.
  - by rewrite (left_id_L ∅ (∪) hs).
  - rewrite bind_mret; simpl. rewrite bind_mret, IH. f_equal. set_solver.
Qed.

(** The run of [detectar_nuevas_ofertas] against the state [previous]:
    one console line, and the listings of [current] whose hash is not a
    hash of [previous]. *)
Lemma detectar_estado previous current :
  empleos_anteriores self = estado_json previous →
  detectar_nuevas_ofertas self current
  = let nuevas := filter (λ o, hash o ∉ (hash <$> previous)) current in
    ([Print ("Nuevas ofertas detectadas: " ++ str_nat (length nuevas))], inr nuevas).
Proof.
  intros Hself. unfold detectar_nuevas_ofertas. rewrite Hself. simpl.
  rewrite bind_mret, set_hashes_estado, bind_mret.
  rewrite (list_filter_iff _ (λ o, hash o ∉ (hash <$> previous))).
  - by rewrite bind_print.
  - intros o. by rewrite elem_of_union, elem_of_list_to_set, elem_of_empty, (right_id False or).
Qed.
End diff.

(** C3: against a previous state [previous], the diff is exactly the
    listings of [current] whose hash is not a hash of [previous], in the
    order [current] has them: it is the filter of [current] by that test, a
    sublist of [current], and a listing is in it iff it is in [current] and
    its hash is absent from [previous]. *)
Theorem detectar_nuevas_ofertas_filtra (self : MonitorEmpleoCloud)
    (previous current : list oferta) :
  empleos_anteriores self = estado_json previous →
  ∃ nuevas,
    resultado (detectar_nuevas_ofertas self current) = inr nuevas
    ∧ nuevas = filter (λ o, hash o ∉ (hash <$> previous)) current
    ∧ nuevas `sublist_of` current
    ∧ ∀ o, o ∈ nuevas ↔ o ∈ current ∧ hash o ∉ (hash <$> previous).
Proof.
  intros Hself. rewrite (detectar_estado self previous current Hself).
  eexists; split; [reflexivity |]. split; [done |]. split.
  - apply sublist_filter.
  - intros o. rewrite list_elem_of_filter. tauto.
Qed.

Lemma detectar_nuevas_ofertas_filtra_ejemplo :
  ∃ nuevas,
    resultado (detectar_nuevas_ofertas
                 (Ejemplos.monitor (estado_json [Ejemplos.chef]))
                 [Ejemplos.chef; Ejemplos.mozo]) = inr nuevas
    ∧ nuevas = filter (λ o, hash o ∉ (hash <$> [Ejemplos.chef]))
                      [Ejemplos.chef; Ejemplos.mozo]
    ∧ nuevas `sublist_of` [Ejemplos.chef; Ejemplos.mozo]
    ∧ ∀ o, o ∈ nuevas ↔ o ∈ [Ejemplos.chef; Ejemplos.mozo]
                         ∧ hash o ∉ (hash <$> [Ejemplos.chef]).
Proof.
  apply (detectar_nuevas_ofertas_filtra
           (Ejemplos.monitor (estado_json [Ejemplos.chef]))
           [Ejemplos.chef] [Ejemplos.chef; Ejemplos.mozo]).
  reflexivity.
Defined.

Lemma filter_todos {A} (P : A → Prop) `{!∀ x, Decision (P x)} (l : list A) :
  (∀ x, x ∈ l → P x) → filter P l = l.
Proof.
  induction l as [|x l IH]; intros Hl; [done |].
  rewrite filter_cons_True by (apply Hl; left).
  f_equal. apply IH. intros y Hy. apply Hl. by right.
Qed.

(** C5: against the empty previous state the diff is [current] itself,
    every listing and in the same order. *)
Theorem detectar_nuevas_ofertas_bootstrap (self : MonitorEmpleoCloud)
    (current : list oferta) :
  empleos_anteriores self = estado_json [] →
  resultado (detectar_nuevas_ofertas self current) = inr current.
Proof.
  intros Hself. rewrite (detectar_estado self [] current Hself). simpl.
  f_equal. apply filter_todos. intros o _. apply not_elem_of_nil.
Qed.

Lemma detectar_nuevas_ofertas_bootstrap_ejemplo :
  resultado (detectar_nuevas_ofertas (Ejemplos.monitor (JList []))
               [Ejemplos.chef; Ejemplos.mozo; Ejemplos.mozo_bis])
  = inr [Ejemplos.chef; Ejemplos.mozo; Ejemplos.mozo_bis].
Proof.
  apply (detectar_nuevas_ofertas_bootstrap (Ejemplos.monitor (JList []))).
  reflexivity.
Defined.

(** C10: two previous states with the same set of hashes give the same
    diff (and the same console line), whatever their other fields, their
    order and their repetitions. *)
Theorem detectar_nuevas_ofertas_solo_hashes (self1 self2 : MonitorEmpleoCloud)
    (p1 p2 current : list oferta) :
  empleos_anteriores self1 = estado_json p1 →
  empleos_anteriores self2 = estado_json p2 →
  (∀ h, h ∈ (hash <$> p1) ↔ h ∈ (hash <$> p2)) →
  detectar_nuevas_ofertas self1 current = detectar_nuevas_ofertas self2 current.
Proof.
  intros H1 H2 Hh.
  rewrite (detectar_estado self1 p1 current H1), (detectar_estado self2 p2 current H2).
  simpl.
  rewrite (list_filter_iff (λ o, hash o ∉ (hash <$> p1)) (λ o, hash o ∉ (hash <$> p2))); [done |].
  intros o. by rewrite Hh.
Qed.

Lemma detectar_nuevas_ofertas_solo_hashes_ejemplo :
  detectar_nuevas_ofertas
    (Ejemplos.monitor (estado_json [Ejemplos.mozo; Ejemplos.chef]))
    [Ejemplos.chef; Ejemplos.mozo_bis]
  = detectar_nuevas_ofertas
      (Ejemplos.monitor (estado_json [Ejemplos.chef; Ejemplos.mozo_bis; Ejemplos.chef]))
      [Ejemplos.chef; Ejemplos.mozo_bis].
Proof.
  apply (detectar_nuevas_ofertas_solo_hashes _ _
           [Ejemplos.mozo; Ejemplos.chef]
           [Ejemplos.chef; Ejemplos.mozo_bis; Ejemplos.chef]);
    [reflexivity | reflexivity |].
  assert (E : hash Ejemplos.mozo_bis = hash Ejemplos.mozo)
    by (vm_compute; reflexivity).
  intros h. rewrite !list_elem_of_In. cbn [fmap list_fmap In]. rewrite E.
  generalize (hash Ejemplos.mozo) (hash Ejemplos.chef). intros a b. tauto.
Defined.

(** C8: pairs whose concatenations normalise to the same text have the same
    fingerprint, as ("ab", "c") and ("a", "bc") do; the diff then takes
    them for one listing: when one of them is in the previous state, the
    other is not reported as new. *)
Theorem calcular_hash_colision_de_frontera (t1 e1 t2 e2 : string) :
  strip (lower (t1 ++ e1)) = strip (lower (t2 ++ e2)) →
  calcular_hash t1 e1 = calcular_hash t2 e2
  ∧ calcular_hash "ab" "c" = calcular_hash "a" "bc"
  ∧ ∀ (self : MonitorEmpleoCloud) (previous current nuevas : list oferta) (o1 o2 : oferta),
      empleos_anteriores self = estado_json previous →
      hash o1 = calcular_hash t1 e1 →
      hash o2 = calcular_hash t2 e2 →
      o2 ∈ previous →
      resultado (detectar_nuevas_ofertas self current) = inr nuevas →
      o1 ∉ nuevas.
Proof.
  intros Htexto.
  assert (Hhash : calcular_hash t1 e1 = calcular_hash t2 e2)
    by (unfold calcular_hash; by rewrite Htexto).
  split; [done |]. split; [done |].
  intros self previous current nuevas o1 o2 Hself H1 H2 Hprev Hres.
  rewrite (detectar_estado self previous current Hself) in Hres.
  simpl in Hres. injection Hres as <-.
  rewrite list_elem_of_filter. intros [Hnuevo _]. apply Hnuevo.
  rewrite H1, Hhash, <- H2. by apply list_elem_of_fmap_2.
Qed.

Lemma calcular_hash_colision_de_frontera_ejemplo :
  calcular_hash "ab" "c" = calcular_hash "a" "bc".
Proof.
  apply (calcular_hash_colision_de_frontera "ab" "c" "a" "bc").
  reflexivity.
Defined.

(** Two positions of a list that pass a filter are two positions of the
    filtered list. *)
Lemma filter_conserva_dos {A} (P : A → Prop) `{!∀ x, Decision (P x)}
    (l : list A) (i j : nat) (x y : A) :
  i < j → l !! i = Some x → l !! j = Some y → P x → P y →
  ∃ i' j', i' < j' ∧ filter P l !! i' = Some x ∧ filter P l !! j' = Some y.
Proof.
  revert i j. induction l as [|a l IH]; intros i j Hij Hi Hj Px Py; [done |].
  destruct j as [|j]; [lia |]. simpl in Hj.
  destruct i as [|i]; simpl in Hi.
  - injection Hi as ->. rewrite filter_cons_True by done.
    assert (Hy : y ∈ filter P l).
    { apply list_elem_of_filter; split; [done |]. by eapply list_elem_of_lookup_2. }
    apply list_elem_of_lookup in Hy as [k Hk].
    exists 0, (S k). split; [lia | done].
  - destruct (IH i j) as (i' & j' & Hlt & Hi' & Hj'); [lia | done..|].
    destruct (decide (P a)).
    + rewrite filter_cons_True by done. exists (S i'), (S j'). split; [lia | done].
    + rewrite filter_cons_False by done. by exists i', j'.
Qed.

(** ** Link resolution *)

(** The constructor never fails; it fixes the two URLs and takes the
    previous state from the file when that could be read. *)
Lemma init_resultado (env : entorno) :
  ∃ ev self,
    __init__ env = (ev, inr self)
    ∧ ev = match env_estado env with
           | Ilegible e => [Print ("Error al cargar estado: " ++ str_exc e)]
           | _ => []
           end
    ∧ url_base self = "https://www.santafe.gob.ar/simtyss/portalempleo/"
    ∧ url_busqueda self = "https://www.santafe.gob.ar/simtyss/portalempleo/ofertas/"
    ∧ empleos_anteriores self = match env_estado env with
                                | Cargado v => v
                                | _ => JList []
                                end.
Proof.
  unfold __init__, cargar_estado.
  destruct (env_estado env); eexists _, _; (split; [reflexivity |]); done.
Qed.

(** C2, as stated, fails: a relative href is appended to the base portal
    URL, not to the search-results path; and an href that starts with a
    scheme other than http is not returned unchanged. *)
Lemma construir_enlace_no_usa_busqueda :
  let self := Ejemplos.monitor (JList []) in
  __init__ (Ejemplos.entorno_de Ausente (Ejemplos.pagina [])) = ([], inr self)
  ∧ construir_enlace self (Some (Ejemplos.ancla "5")) ≠ url_busqueda self ++ "5"
  ∧ construir_enlace self (Some (Ejemplos.ancla "ftp://x.com/a")) ≠ "ftp://x.com/a".
Proof. split; [reflexivity |]. split; intros H; vm_compute in H; discriminate H. Qed.

(** C2 (amended): for the monitor as constructed, with no anchor the link
    is the base portal URL; an href that starts with "http" is returned
    unchanged; otherwise one that starts with "/" is prefixed with the
    origin "https://www.santafe.gob.ar"; any other href is appended to the
    base portal URL (so "5" yields the base portal URL followed by "5"). *)
Theorem construir_enlace_resuelve (env : entorno) (ev : list evento)
    (self : MonitorEmpleoCloud) (a : Tag) :
  __init__ env = (ev, inr self) →
  let href := attr_get (tag_attrs a) "href" "" in
  construir_enlace self None = "https://www.santafe.gob.ar/simtyss/portalempleo/"
  ∧ (startswith href "http" = true → construir_enlace self (Some a) = href)
  ∧ (startswith href "http" = false → startswith href "/" = true →
     construir_enlace self (Some a) = "https://www.santafe.gob.ar" ++ href)
  ∧ (startswith href "http" = false → startswith href "/" = false →
     construir_enlace self (Some a)
     = "https://www.santafe.gob.ar/simtyss/portalempleo/" ++ href).
Proof.
  intros Hinit href.
  destruct (init_resultado env) as (ev' & self' & Hinit' & _ & Hbase & _).
  rewrite Hinit in Hinit'. injection Hinit' as _ <-.
  unfold construir_enlace. fold href. rewrite Hbase.
  split; [done |]. split; [by intros -> |]. split; by intros -> ->.
Qed.

Lemma construir_enlace_resuelve_ejemplo :
  let self := Ejemplos.monitor (JList []) in
  construir_enlace self None = "https://www.santafe.gob.ar/simtyss/portalempleo/"
  ∧ construir_enlace self (Some (Ejemplos.ancla "https://x.com/a")) = "https://x.com/a"
  ∧ construir_enlace self (Some (Ejemplos.ancla "/ofertas/5"))
    = "https://www.santafe.gob.ar/ofertas/5"
  ∧ construir_enlace self (Some (Ejemplos.ancla "5"))
    = "https://www.santafe.gob.ar/simtyss/portalempleo/5".
Proof.
  pose (env := Ejemplos.entorno_de Ausente (Ejemplos.pagina [])).
  pose (self := Ejemplos.monitor (JList [])).
  assert (Hinit : __init__ env = ([], inr self)) by reflexivity.
  split; [apply (construir_enlace_resuelve env [] self (Ejemplos.ancla "5") Hinit) |].
  split; [apply (construir_enlace_resuelve env [] self (Ejemplos.ancla "https://x.com/a") Hinit);
          reflexivity |].
  split; [apply (construir_enlace_resuelve env [] self (Ejemplos.ancla "/ofertas/5") Hinit);
          reflexivity |].
  apply (construir_enlace_resuelve env [] self (Ejemplos.ancla "5") Hinit); reflexivity.
Defined.

(** ** The digest message *)

Section mensaje.
Implicit Types (s a b p : string) (l : list oferta).

Lemma append_cons x a b : String x a ++ b = String x (a ++ b).
Proof. done. Qed.

Lemma append_assoc a b c : (a ++ b) ++ c = a ++ b ++ c.
Proof. induction a as [|x a IH]; [done | by rewrite !append_cons, IH]. Qed.

Lemma append_nil_r a : a ++ "" = a.
Proof. induction a as [|x a IH]; [done | by rewrite append_cons, IH]. Qed.

Lemma prefix_app p b : String.prefix p (p ++ b) = true.
Proof.
  induction p as [|x p IH]; [by destruct b |].
  rewrite append_cons. simpl. destruct (ascii_dec x x); [done | congruence].
Qed.

Lemma contiene_app_r a s p : contiene s p = true → contiene (a ++ s) p = true.
Proof.
  intros Hs. induction a as [|x a IH]; [done |].
  rewrite append_cons. cbn [contiene]. rewrite IH. apply orb_true_r.
Qed.

Lemma contiene_prefix s p : String.prefix p s = true → contiene s p = true.
Proof. intros Hp. destruct s; cbn [contiene]; by rewrite Hp. Qed.

Lemma contiene_medio a p b : contiene (a ++ p ++ b) p = true.
Proof. apply contiene_app_r, contiene_prefix, prefix_app. Qed.

Lemma enumerate_cons {A} (x : A) (xs : list A) start :
  enumerate (x :: xs) start = (start, x) :: enumerate xs (S start).
Proof. done. Qed.

(** The loop of [enviar_telegram] appends one [entrada] per listing. *)
Lemma fold_entradas l start mensaje :
  fold_left (λ mensaje '(i, o), mensaje ++ entrada i o) (enumerate l start) mensaje
  = mensaje ++ unir (map (λ '(i, o), entrada i o) (enumerate l start)).
Proof.
  revert start mensaje. induction l as [|o l IH]; intros start mensaje.
  - simpl. by rewrite append_nil_r.
  - rewrite enumerate_cons. simpl. by rewrite IH, append_assoc.
Qed.

Lemma entrada_contiene i o :
  contiene (entrada i o) (titulo o) = true
  ∧ contiene (entrada i o) (ubicacion o) = true
  ∧ contiene (entrada i o) (empresa o) = true
  ∧ contiene (entrada i o) (enlace o) = true.
Proof.
  unfold entrada. rewrite !append_assoc.
  repeat split;
    repeat first [ apply contiene_prefix, prefix_app | apply contiene_app_r ].
Qed.
End mensaje.

(** C7: the digest is exactly a header with the total count, then one
    entry for each of the first ten listings and for no other (fewer when
    there are fewer), each entry being the rank, title, location, employer
    and link of its listing in the fixed layout, then, exactly when there
    are more than ten listings, a last line with the number of listings
    left out; with ten or fewer nothing follows the entries.  It is the
    text posted to Telegram when the credentials are configured. *)
Theorem mensaje_telegram_formato (nuevas : list oferta) :
  let n := length nuevas in
  ∃ (entradas : list string) (cola : string),
    mensaje_telegram nuevas
    = ("🔔 *Nuevas Ofertas de Empleo - Santa Fe*" ++ nl
       ++ "Se detectaron " ++ str_nat n ++ " nueva(s) oferta(s)" ++ nl ++ nl)
      ++ unir entradas ++ cola
    ∧ length entradas = n `min` 10
    ∧ (∀ i o, nuevas !! i = Some o → i < 10 →
         ∃ en, entradas !! i = Some en
               ∧ en = str_nat (S i) ++ ". *" ++ titulo o ++ "*" ++ nl
                      ++ "   📍 " ++ ubicacion o ++ nl
                      ++ "   🏢 " ++ empresa o ++ nl
                      ++ "   🔗 [Ver oferta](" ++ enlace o ++ ")" ++ nl ++ nl
               ∧ String.prefix (str_nat (S i) ++ ". *") en = true
               ∧ contiene en (titulo o) = true
               ∧ contiene en (ubicacion o) = true
               ∧ contiene en (empresa o) = true
               ∧ contiene en (enlace o) = true)
    ∧ cola = (if decide (10 < n)
              then "... y " ++ str_nat (n - 10) ++ " ofertas más." ++ nl
              else "")
    ∧ (∀ self env,
         telegram_bot_token self ≠ "" → telegram_chat_id self ≠ "" →
         HttpPost ("https://api.telegram.org/bot" ++ telegram_bot_token self ++ "/sendMessage")
                  (telegram_chat_id self) (mensaje_telegram nuevas)
         ∈ eventos (enviar_telegram self env nuevas)).
Proof.
  intros n.
  exists (map (λ '(i, o), entrada i o) (enumerate (take 10 nuevas) 1)).
  eexists. split; [| split; [| split; [| split; [reflexivity |]]]].
  - unfold mensaje_telegram. rewrite fold_entradas. fold n.
    destruct (10 <? n)%nat eqn:Hn, (decide (10 < n)) as [Hn'|Hn'].
    + by rewrite !append_assoc.
    + apply Nat.ltb_lt in Hn. lia.
    + apply Nat.ltb_ge in Hn. lia.
    + by rewrite !append_assoc, append_nil_r.
  - unfold enumerate. rewrite length_map, length_zip, length_seq, length_take. lia.
  - intros i o Hi Hlt. exists (entrada (S i) o). split.
    + rewrite list_lookup_fmap. unfold enumerate.
      assert (Hz : zip (seq 1 (length (take 10 nuevas))) (take 10 nuevas) !! i
                   = Some (S i, o)).
      { apply lookup_zip_Some. split.
        - apply lookup_seq. split; [done |].
          rewrite length_take. apply lookup_lt_Some in Hi. lia.
        - by rewrite lookup_take_lt. }
      by rewrite Hz.
    + split; [unfold entrada; by rewrite !append_assoc |].
      split; [| apply entrada_contiene].
      unfold entrada. rewrite !append_assoc, <- (append_assoc (str_nat (S i))).
      apply prefix_app.
  - intros self env Htoken Hchat. unfold enviar_telegram.
    apply String.eqb_neq in Htoken, Hchat. rewrite Htoken, Hchat. simpl.
    destruct (env_post env); simpl; left.
Qed.

(** ** The run controller *)

Section ejecucion.
Context (self : MonitorEmpleoCloud) (env : entorno).

Lemma termina_inr {A} (m : Prog A) :
  termina m = true → ∃ ev x, m = (ev, inr x).
Proof. destruct m as [ev [e|x]]; [done | by exists ev, x]. Qed.

Lemma termina_bind {A B} (m : Prog A) (f : A → Prog B) :
  termina m = true → (∀ x, termina (f x) = true) → termina (m ≫= f) = true.
Proof.
  intros (ev & x & ->)%termina_inr Hf. rewrite (bind_inr _ f ev x eq_refl).
  apply Hf.
Qed.

Lemma calla_mret {A} (x : A) : calla (mret x : Prog A).
Proof. split; [done | constructor]. Qed.

Lemma calla_print linea : calla (print linea).
Proof. split; [done | by repeat constructor]. Qed.

Lemma calla_bind {A B} (m : Prog A) (f : A → Prog B) :
  calla m → (∀ x, calla (f x)) → calla (m ≫= f).
Proof.
  intros [(ev & x & ->)%termina_inr Hev] Hf.
  rewrite (bind_inr _ f ev x eq_refl). destruct (Hf x) as [Ht Hs].
  split; [done |]. simpl in *. by apply Forall_app.
Qed.

(** An exception handler that is quiet makes a quiet computation of any
    computation whose events are. *)
Lemma calla_atrapar {A} (m : Prog A) (h : excepcion → Prog A) :
  Forall (λ e, es_externo e = false) (eventos m) →
  (∀ e, calla (h e)) → calla (atrapar m h).
Proof.
  destruct m as [ev [e|x]]; simpl; intros Hev Hh; [| done].
  destruct (Hh e) as [Ht Hs]. unfold atrapar.
  destruct (h e) as [ev' r]. split; [done |]. simpl in *. by apply Forall_app.
Qed.

Lemma procesar_elemento_calla ofertas el :
  calla (procesar_elemento self ofertas el).
Proof.
  unfold procesar_elemento. apply calla_atrapar.
  - destruct el as [q|e]; [| constructor].
    destruct (or_opcion _ _); constructor.
  - intros e. apply calla_bind; [apply calla_print | intros; apply calla_mret].
Qed.

Lemma procesar_elementos_calla ofertas els :
  calla (procesar_elementos self ofertas els).
Proof.
  revert ofertas. induction els as [|el els IH]; intros ofertas; simpl.
  - apply calla_mret.
  - apply calla_bind; [apply procesar_elemento_calla | done].
Qed.

(** [obtener_ofertas] always returns a list, and only prints and sends
    the GET while doing so. *)
Lemma obtener_ofertas_calla : calla (obtener_ofertas self env).
Proof.
  unfold obtener_ofertas. apply calla_atrapar.
  - destruct (env_respuesta env) as [e|soup]; [by repeat constructor |].
    rewrite bind_print.
    unfold emitir at 1. unfold mbind at 1, Prog_bind at 1.
    rewrite bind_mret. cbv zeta.
    set (els := or_lista _ _).
    destruct (procesar_elementos_calla [] els) as [(ev & l & Hl)%termina_inr Hs].
    rewrite Hl in Hs. simpl in Hs.
    rewrite bind_print, (bind_inr _ _ ev l Hl), bind_print. simpl.
    do 3 (constructor; [done |]).
    apply Forall_app. split; [done | by repeat constructor].
  - intros e. apply calla_bind; [| intros; apply calla_mret].
    destruct e; apply calla_print.
Qed.

(** A failed request or parse gives no listing. *)
Lemma obtener_ofertas_falla e :
  env_respuesta env = Falla e → resultado (obtener_ofertas self env) = inr [].
Proof. intros He. unfold obtener_ofertas. rewrite He. by destruct e. Qed.
End ejecucion.

(** The run when extraction gives no listing. *)
Lemma ejecutar_sin_ofertas_eventos (self : MonitorEmpleoCloud) (env : entorno) ev :
  obtener_ofertas self env = (ev, inr []) →
  ejecutar self env
  = (((Print "Iniciando verificación de ofertas de empleo..."
      :: Print ("Fecha/Hora: " ++ env_ahora_ejecutar env)
      :: ev) ++ [Print aviso_sin_ofertas])%list, inr tt).
Proof.
  intros Hob. unfold ejecutar.
  rewrite !bind_print, (bind_inr _ _ ev [] Hob). reflexivity.
Qed.

(** C6: when extraction yields no listing, which is what any failure of the
    request or of the parse comes to, the run ends normally, it makes no
    Telegram call and no write of the state file, and its last console
    line is the warning. *)
Theorem ejecutar_sin_ofertas (self : MonitorEmpleoCloud) (env : entorno) :
  (resultado (obtener_ofertas self env) = inr []
   ∨ ∃ e, env_respuesta env = Falla e) →
  resultado (obtener_ofertas self env) = inr []
  ∧ resultado (ejecutar self env) = inr tt
  ∧ (∀ e, e ∈ eventos (ejecutar self env) → es_externo e = false)
  ∧ last (eventos (ejecutar self env)) = Some (Print aviso_sin_ofertas).
Proof.
  intros H.
  assert (Hres : resultado (obtener_ofertas self env) = inr []).
  { destruct H as [H | [e He]]; [done | by eapply obtener_ofertas_falla]. }
  clear H. split; [done |].
  destruct (obtener_ofertas_calla self env) as [_ Hs].
  destruct (obtener_ofertas self env) as [ev r] eqn:Hob.
  simpl in Hres, Hs. subst r.
  rewrite (ejecutar_sin_ofertas_eventos self env ev Hob). simpl.
  split; [done |]. split.
  - intros e. rewrite !elem_of_cons, elem_of_app, list_elem_of_singleton.
    intros [-> | [-> | [He | ->]]]; try done.
    by eapply Forall_forall in Hs.
  - rewrite !app_comm_cons. apply last_snoc.
Qed.

Lemma ejecutar_sin_ofertas_ejemplo :
  let self := Ejemplos.monitor (estado_json [Ejemplos.chef]) in
  let env := Ejemplos.entorno_de (Cargado (estado_json [Ejemplos.chef]))
                                 (Falla (RequestException "timeout")) in
  resultado (obtener_ofertas self env) = inr []
  ∧ resultado (ejecutar self env) = inr tt
  ∧ (∀ e, e ∈ eventos (ejecutar self env) → es_externo e = false)
  ∧ last (eventos (ejecutar self env)) = Some (Print aviso_sin_ofertas).
Proof.
  apply (ejecutar_sin_ofertas
           (Ejemplos.monitor (estado_json [Ejemplos.chef]))
           (Ejemplos.entorno_de (Cargado (estado_json [Ejemplos.chef]))
                                (Falla (RequestException "timeout")))).
  left. reflexivity.
Defined.

Section ejecucion_completa.
Context (self : MonitorEmpleoCloud) (env : entorno).

Lemma elem_bind_l {A B} (m : Prog A) (f : A → Prog B) e :
  e ∈ eventos m → e ∈ eventos (m ≫= f).
Proof.
  destruct m as [ev [x|x]]; simpl; [done |]. intros He.
  rewrite (bind_inr _ f ev x eq_refl). simpl. apply elem_of_app. by left.
Qed.

Lemma elem_bind_r {A B} (m : Prog A) (f : A → Prog B) ev x e :
  m = (ev, inr x) → e ∈ eventos (f x) → e ∈ eventos (m ≫= f).
Proof.
  intros Hm He. rewrite (bind_inr _ f ev x Hm). simpl. apply elem_of_app. by right.
Qed.

Lemma termina_print linea : termina (print linea) = true.
Proof. done. Qed.

Lemma imprimir_ofertas_termina l : termina (imprimir_ofertas l) = true.
Proof.
  induction l as [|[i o] l IH]; simpl; [done |].
  repeat (apply termina_bind; [apply termina_print | intros _]). done.
Qed.

Lemma generar_resumen_termina nuevas totales :
  termina (len (empleos_anteriores self)) = true →
  termina (generar_resumen self env nuevas totales) = true.
Proof.
  intros Hlen. unfold generar_resumen.
  repeat (apply termina_bind; [apply termina_print | intros _]).
  apply termina_bind; [done | intros conocidas].
  apply termina_bind; [apply termina_print | intros _].
  apply termina_bind; [| done].
  destruct nuevas; [done |].
  apply termina_bind; [done | intros _]. apply imprimir_ofertas_termina.
Qed.

Lemma enviar_telegram_termina nuevas :
  termina (enviar_telegram self env nuevas) = true.
Proof.
  unfold enviar_telegram. destruct (_ || _); [done |].
  by destruct (env_post env).
Qed.

Lemma guardar_estado_termina empleos :
  termina (guardar_estado self env empleos) = true.
Proof. unfold guardar_estado. by destruct (env_escritura env). Qed.

Lemma guardar_estado_escribe empleos :
  env_escritura env = None →
  JsonDump (archivo_estado self) empleos ∈ eventos (guardar_estado self env empleos).
Proof. intros He. unfold guardar_estado. rewrite He. simpl. left. Qed.

(** Against a state the program wrote itself, the run ends normally
    whatever the page, the Telegram outcome and the write outcome. *)
Lemma ejecutar_termina_estado_propio previous :
  empleos_anteriores self = estado_json previous →
  termina (ejecutar self env) = true.
Proof.
  intros Hself. unfold ejecutar.
  repeat (apply termina_bind; [apply termina_print | intros _]).
  apply termina_bind; [apply obtener_ofertas_calla | intros [|o actuales]]; [done |].
  apply termina_bind; [by rewrite (detectar_estado self previous _ Hself) | intros nuevas].
  apply termina_bind.
  { apply generar_resumen_termina. by rewrite Hself. }
  intros _. apply termina_bind.
  { destruct nuevas; [done |].
    apply termina_bind; [apply enviar_telegram_termina | done]. }
  intros _. apply termina_bind; [apply guardar_estado_termina | done].
Qed.

(** After a fetch with listings, the state written is the whole fetch. *)
Lemma ejecutar_guarda_actuales previous current :
  empleos_anteriores self = estado_json previous →
  current ≠ [] →
  resultado (obtener_ofertas self env) = inr current →
  env_escritura env = None →
  JsonDump (archivo_estado self) current ∈ eventos (ejecutar self env).
Proof.
  intros Hself Hne Hres Hesc.
  destruct (obtener_ofertas self env) as [ev r] eqn:Hob. simpl in Hres. subst r.
  destruct current as [|o actuales]; [done |]. unfold ejecutar.
  do 2 (eapply elem_bind_r; [reflexivity |]).
  eapply elem_bind_r; [exact Hob |]. cbv beta iota.
  eapply elem_bind_r; [apply (detectar_estado self previous), Hself |].
  set (nuevas := filter _ _).
  destruct (termina_inr _ (generar_resumen_termina nuevas (o :: actuales)
              ltac:(by rewrite Hself))) as (evg & [] & Hg).
  eapply elem_bind_r; [exact Hg |].
  assert (Htel : termina (match nuevas with
                          | _ :: _ => enviar_telegram self env nuevas;; mret ()
                          | [] => mret ()
                          end) = true).
  { destruct nuevas; [done |].
    apply termina_bind; [apply enviar_telegram_termina | done]. }
  destruct (termina_inr _ Htel) as (evt & [] & Ht).
  eapply elem_bind_r; [exact Ht |].
  apply elem_bind_l. by apply guardar_estado_escribe.
Qed.
End ejecucion_completa.

(** ** The whole process *)

(** With no state file, an unreadable one or one the program wrote, the
    process ends without an exception. *)
Lemma main_termina_estado_propio (env : entorno) (previous : list oferta) :
  env_estado env = Ausente
  ∨ (∃ e, env_estado env = Ilegible e)
  ∨ env_estado env = Cargado (estado_json previous) →
  termina (main env) = true.
Proof.
  intros Hestado.
  destruct (init_resultado env) as (ev & self & Hinit & _ & _ & _ & Hprev).
  unfold main. rewrite (bind_inr _ _ ev self Hinit). unfold termina. simpl.
  destruct Hestado as [H | [[e H] | H]]; rewrite H in Hprev.
  - by apply (ejecutar_termina_estado_propio self env []).
  - by apply (ejecutar_termina_estado_propio self env []).
  - by apply (ejecutar_termina_estado_propio self env previous).
Qed.

(** C4 (what the code does where the claim fails): a state file that parses
    but is not a list of listings ends the process with an uncaught
    exception.  With [[{"titulo": "Chef"}]] in the file and one listing on
    the page, [emp['hash']] raises KeyError in [detectar_nuevas_ofertas],
    outside every [try]; with [[1]] in the file it raises TypeError.  The
    run has then neither notified nor saved the state. *)
Theorem main_estado_mal_formado_lanza :
  let pagina := Ejemplos.pagina [Ejemplos.contenedor "Mozo"] in
  let env := Ejemplos.entorno_de
               (Cargado (JList [JDict [("titulo", JStr "Chef")]])) pagina in
  resultado (main env) = inl (KeyError "hash")
  ∧ termina (main env) = false
  ∧ forallb (λ e, negb (es_externo e)) (eventos (main env)) = true
  ∧ resultado (main (Ejemplos.entorno_de (Cargado (JList [JInt 1])) pagina))
    = inl (TypeError "'int' object is not subscriptable").
Proof. repeat split; vm_compute; reflexivity. Qed.

(** C9: two listings of [current] with the same hash, a hash the previous
    state does not hold, are both in the diff, at two positions; and the
    state written at the end of the run is the whole of [current], both
    listings included. *)
Theorem detectar_nuevas_ofertas_sin_deduplicar (self : MonitorEmpleoCloud)
    (env : entorno) (previous current : list oferta) (i j : nat) (o1 o2 : oferta) :
  empleos_anteriores self = estado_json previous →
  current !! i = Some o1 →
  current !! j = Some o2 →
  i ≠ j →
  hash o1 = hash o2 →
  hash o1 ∉ (hash <$> previous) →
  (∃ nuevas i' j',
      resultado (detectar_nuevas_ofertas self current) = inr nuevas
      ∧ i' ≠ j' ∧ nuevas !! i' = Some o1 ∧ nuevas !! j' = Some o2)
  ∧ (resultado (obtener_ofertas self env) = inr current →
     env_escritura env = None →
     JsonDump (archivo_estado self) current ∈ eventos (ejecutar self env)).
Proof.
  intros Hself Hi Hj Hij Hhash Hnuevo. split.
  - rewrite (detectar_estado self previous current Hself). simpl.
    eexists.
    assert (Hnuevo2 : hash o2 ∉ (hash <$> previous)) by by rewrite <- Hhash.
    destruct (decide (i < j)) as [Hlt|Hge].
    + destruct (filter_conserva_dos (λ o, hash o ∉ (hash <$> previous))
                  current i j o1 o2) as (i' & j' & Hlt' & Hi' & Hj'); [done..|].
      exists i', j'. split; [reflexivity |]. split; [lia | done].
    + destruct (filter_conserva_dos (λ o, hash o ∉ (hash <$> previous))
                  current j i o2 o1) as (j' & i' & Hlt' & Hj' & Hi'); [lia | done..|].
      exists i', j'. split; [reflexivity |]. split; [lia | done].
  - intros Hres Hesc. apply (ejecutar_guarda_actuales self env previous); try done.
    intros ->. done.
Qed.

Lemma detectar_nuevas_ofertas_sin_deduplicar_ejemplo :
  let self := Ejemplos.monitor (estado_json [Ejemplos.chef]) in
  let current := [Ejemplos.mozo; Ejemplos.chef; Ejemplos.mozo_bis] in
  ∃ nuevas i' j',
    resultado (detectar_nuevas_ofertas self current) = inr nuevas
    ∧ i' ≠ j' ∧ nuevas !! i' = Some Ejemplos.mozo ∧ nuevas !! j' = Some Ejemplos.mozo_bis.
Proof.
  apply (detectar_nuevas_ofertas_sin_deduplicar
           (Ejemplos.monitor (estado_json [Ejemplos.chef]))
           (Ejemplos.entorno_de (Cargado (estado_json [Ejemplos.chef]))
                                (Ejemplos.pagina []))
           [Ejemplos.chef]
           [Ejemplos.mozo; Ejemplos.chef; Ejemplos.mozo_bis]
           0 2 Ejemplos.mozo Ejemplos.mozo_bis);
    [reflexivity | reflexivity | reflexivity | lia | vm_compute; reflexivity |].
  rewrite list_elem_of_In. vm_compute. intros [H | []]. discriminate H.
Defined.

(** * Further properties of the code *)

(** ** Links *)

(** X1: every link the constructed monitor resolves starts with "http",
    whatever the anchor, and resolving a resolved link again changes
    nothing. *)
Theorem construir_enlace_absoluto (env : entorno) (ev : list evento)
    (self : MonitorEmpleoCloud) (elemento_enlace : option Tag) :
  __init__ env = (ev, inr self) →
  let enlace := construir_enlace self elemento_enlace in
  startswith enlace "http" = true
  ∧ construir_enlace self (Some {| tag_name := "a"; tag_attrs := [("href", enlace)] |})
    = enlace.
Proof.
  intros Hinit enlace.
  destruct (init_resultado env) as (ev' & self' & Hinit' & _ & Hbase & _).
  rewrite Hinit in Hinit'. injection Hinit' as _ <-.
  assert (Habs : startswith enlace "http" = true).
  { unfold enlace, construir_enlace. rewrite Hbase.
    destruct elemento_enlace as [a|]; [| done].
    destruct (startswith (attr_get _ _ _) "http") eqn:Hhttp; [done |].
    by destruct (startswith (attr_get _ _ _) "/"). }
  split; [done |]. unfold construir_enlace at 1. simpl.
  by rewrite Habs.
Qed.

Lemma construir_enlace_absoluto_ejemplo :
  let self := Ejemplos.monitor (JList []) in
  let enlace := construir_enlace self (Some (Ejemplos.ancla "ofertas/5")) in
  startswith enlace "http" = true
  ∧ construir_enlace self (Some {| tag_name := "a"; tag_attrs := [("href", enlace)] |})
    = enlace.
Proof.
  apply (construir_enlace_absoluto
           (Ejemplos.entorno_de Ausente (Ejemplos.pagina [])) []
           (Ejemplos.monitor (JList [])) (Some (Ejemplos.ancla "ofertas/5"))).
  reflexivity.
Defined.

(** ** Extraction *)

Section extraccion.
Context (self : MonitorEmpleoCloud).
Implicit Types (acc ofertas : list oferta) (el : elemento) (els : list elemento).

Lemma resultado_bind_inr {A B} (m : Prog A) (f : A → Prog B) x :
  resultado m = inr x → resultado (m ≫= f) = resultado (f x).
Proof.
  destruct m as [ev r]. simpl. intros ->. by rewrite (bind_inr _ f ev x eq_refl).
Qed.

Lemma procesar_elementos_app acc els1 els2 :
  procesar_elementos self acc (els1 ++ els2)
  = procesar_elementos self acc els1 ≫= λ acc', procesar_elementos self acc' els2.
Proof.
  revert acc. induction els1 as [|el els1 IH]; intros acc; simpl.
  - by rewrite bind_mret.
  - destruct (procesar_elemento_calla self acc el) as [(ev & acc' & Hel)%termina_inr _].
    rewrite !(bind_inr _ _ ev acc' Hel), IH.
    destruct (procesar_elementos_calla self acc' els1) as [(ev1 & acc1 & H1)%termina_inr _].
    rewrite (bind_inr _ _ ev1 acc1 H1). simpl.
    rewrite (bind_inr _ _ (ev ++ ev1)%list acc1); [by rewrite app_assoc |].
    by rewrite H1.
Qed.

(** One pass of the loop body either leaves the list as it was or appends
    one record, built from a titled container. *)
Lemma procesar_elemento_casos acc el :
  resultado (procesar_elemento self acc el) = inr acc
  ∨ ∃ q t,
      el = Elemento q
      ∧ or_opcion (q_encabezado q) (or_opcion (q_a_titulo q) (q_strong q)) = Some t
      ∧ resultado (procesar_elemento self acc el)
        = inr ((acc ++ [ {| titulo := t;
                           empresa := default "Gobierno de Santa Fe" (q_empresa q);
                           ubicacion := default "Santa Fe" (q_ubicacion q);
                           enlace := construir_enlace self (q_enlace q);
                           fecha_deteccion := q_ahora q;
                           hash := calcular_hash t (default "Gobierno de Santa Fe"
                                                            (q_empresa q)) |} ])%list).
Proof.
  destruct el as [q|e]; [| by left]. unfold procesar_elemento.
  destruct (or_opcion _ _) as [t|] eqn:Ht; [| by left].
  right. exists q, t. by rewrite Ht.
Qed.

(** A property of records that holds of the list so far and of every record
    a titled container gives, holds of the list after the loop. *)
Lemma procesar_elementos_Forall (P : oferta → Prop) acc els r :
  (∀ q t, P {| titulo := t;
               empresa := default "Gobierno de Santa Fe" (q_empresa q);
               ubicacion := default "Santa Fe" (q_ubicacion q);
               enlace := construir_enlace self (q_enlace q);
               fecha_deteccion := q_ahora q;
               hash := calcular_hash t (default "Gobierno de Santa Fe" (q_empresa q)) |}) →
  Forall P acc →
  resultado (procesar_elementos self acc els) = inr r →
  Forall P r ∧ (length r ≤ length acc + length els)%nat.
Proof.
  intros HP. revert acc. induction els as [|el els IH]; intros acc Hacc Hr; simpl in Hr.
  - injection Hr as <-. split; [done | lia].
  - destruct (procesar_elemento_casos acc el) as [H | (q & t & -> & Ht & H)];
      rewrite (resultado_bind_inr _ _ _ H) in Hr; apply IH in Hr as [Hr Hlen].
    + split; [done | simpl; lia].
    + done.
    + split; [done |]. rewrite length_app in Hlen. simpl in *. lia.
    + apply Forall_app. split; [done |]. by repeat constructor.
Qed.
End extraccion.

(** X3: a container whose processing raises, or in which no title selector
    matches, adds no record and does not stop the loop: the records are
    those the other containers give, in their order. *)
Theorem procesar_elementos_omite (self : MonitorEmpleoCloud) (acc : list oferta)
    (els1 : list elemento) (el : elemento) (els2 : list elemento) :
  match el with
  | ElementoRoto _ => True
  | Elemento q => q_encabezado q = None ∧ q_a_titulo q = None ∧ q_strong q = None
  end →
  resultado (procesar_elementos self acc (els1 ++ el :: els2))
  = resultado (procesar_elementos self acc (els1 ++ els2)).
Proof.
  intros Hel. rewrite !procesar_elementos_app.
  destruct (procesar_elementos_calla self acc els1) as [(ev1 & acc1 & H1)%termina_inr _].
  rewrite !(resultado_bind_inr _ _ acc1) by by rewrite H1.
  simpl. rewrite (resultado_bind_inr _ _ acc1); [done |].
  destruct el as [q|e]; [| done].
  destruct Hel as (Hh & Ha & Hs). unfold procesar_elemento. by rewrite Hh, Ha, Hs.
Qed.

Lemma procesar_elementos_omite_ejemplo :
  let self := Ejemplos.monitor (JList []) in
  let sin_titulo :=
    Elemento {| q_encabezado := None; q_a_titulo := None; q_strong := None;
                q_empresa := Some "Acme"; q_ubicacion := None; q_enlace := None;
                q_ahora := "2024-05-01T08:00:00" |} in
  resultado (procesar_elementos self []
               ([Ejemplos.contenedor "Chef"] ++ sin_titulo :: [Ejemplos.contenedor "Mozo"]))
  = resultado (procesar_elementos self []
                 ([Ejemplos.contenedor "Chef"] ++ [Ejemplos.contenedor "Mozo"])).
Proof.
  cbv zeta.
  apply (procesar_elementos_omite (Ejemplos.monitor (JList [])) []
           [Ejemplos.contenedor "Chef"] _ [Ejemplos.contenedor "Mozo"]).
  simpl. done.
Defined.

Lemma construir_enlace_http (self : MonitorEmpleoCloud) (a : option Tag) :
  url_base self = "https://www.santafe.gob.ar/simtyss/portalempleo/" →
  startswith (construir_enlace self a) "http" = true.
Proof.
  intros Hbase. unfold construir_enlace. rewrite Hbase.
  destruct a as [a|]; [| done].
  destruct (startswith (attr_get _ _ _) "http") eqn:Hhttp; [done |].
  by destruct (startswith (attr_get _ _ _) "/").
Qed.

(** X4: every record [obtener_ofertas] returns carries the fingerprint of
    its own title and employer and a link that starts with "http"; and there
    are no more records than containers found by the five selectors
    together. *)
Theorem obtener_ofertas_invariante (env : entorno) (ev : list evento)
    (self : MonitorEmpleoCloud) (ofertas : list oferta) :
  __init__ env = (ev, inr self) →
  resultado (obtener_ofertas self env) = inr ofertas →
  Forall (λ o, hash o = calcular_hash (titulo o) (empresa o)
               ∧ startswith (enlace o) "http" = true) ofertas
  ∧ ∀ soup, env_respuesta env = Pagina soup →
      (length ofertas ≤ length (concat ((λ sel, sel soup) <$> selectores)))%nat.
Proof.
  intros Hinit Hres.
  destruct (init_resultado env) as (ev' & self' & Hinit' & _ & Hbase & _).
  rewrite Hinit in Hinit'. injection Hinit' as _ <-.
  unfold obtener_ofertas in Hres.
  destruct (env_respuesta env) as [e|soup] eqn:Hresp.
  { assert (ofertas = []) as -> by (destruct e; simpl in Hres; congruence).
    split; [constructor | intros soup; discriminate]. }
  rewrite bind_print in Hres.
  unfold emitir at 1 in Hres. unfold mbind at 1, Prog_bind at 1 in Hres.
  rewrite bind_mret in Hres. cbv zeta in Hres.
  set (els := or_lista _ _) in Hres.
  destruct (procesar_elementos_calla self [] els) as [(ev1 & r & Hr)%termina_inr _].
  rewrite bind_print, (bind_inr _ _ ev1 r Hr), bind_print in Hres.
  simpl in Hres. injection Hres as <-.
  destruct (procesar_elementos_Forall self
              (λ o, hash o = calcular_hash (titulo o) (empresa o)
                    ∧ startswith (enlace o) "http" = true) [] els r) as [HP Hlen].
  - intros q t. simpl. split; [done | by apply construir_enlace_http].
  - constructor.
  - by rewrite Hr.
  - split; [done |]. intros soup' [= <-].
    etrans; [exact Hlen |]. simpl. rewrite !length_app. subst els.
    destruct (div_oferta soup), (div_job_item soup), (article soup), (div_card soup);
      simpl; lia.
Qed.

Lemma obtener_ofertas_invariante_ejemplo :
  let env := Ejemplos.entorno_de Ausente
               (Ejemplos.pagina [Ejemplos.contenedor "Chef"; Ejemplos.contenedor "Mozo"]) in
  ∃ ofertas,
    resultado (obtener_ofertas (Ejemplos.monitor (JList [])) env) = inr ofertas
    ∧ length ofertas = 2
    ∧ Forall (λ o, hash o = calcular_hash (titulo o) (empresa o)
                   ∧ startswith (enlace o) "http" = true) ofertas.
Proof.
  eexists. split; [reflexivity |]. split; [reflexivity |].
  apply (obtener_ofertas_invariante
           (Ejemplos.entorno_de Ausente
              (Ejemplos.pagina [Ejemplos.contenedor "Chef"; Ejemplos.contenedor "Mozo"]))
           [] (Ejemplos.monitor (JList []))); reflexivity.
Defined.

(** The run of [obtener_ofertas] on a page that was fetched and parsed. *)
Lemma obtener_ofertas_pagina (self : MonitorEmpleoCloud) (env : entorno)
    (soup : sopa) (ev1 : list evento) (r : list oferta) :
  env_respuesta env = Pagina soup →
  procesar_elementos self []
    (or_lista (div_oferta soup) (or_lista (div_job_item soup)
       (or_lista (article soup) (or_lista (div_card soup) (li_list_item soup)))))
  = (ev1, inr r) →
  obtener_ofertas self env
  = ((Print ("Consultando: " ++ url_busqueda self)
      :: HttpGet (url_busqueda self)
      :: Print ("Elementos encontrados: "
                ++ str_nat (length
                     (or_lista (div_oferta soup) (or_lista (div_job_item soup)
                        (or_lista (article soup)
                           (or_lista (div_card soup) (li_list_item soup)))))))
      :: ev1 ++ [Print ("Ofertas procesadas: " ++ str_nat (length r))])%list,
     inr r).
Proof.
  intros Hresp Hr. unfold obtener_ofertas. rewrite Hresp.
  rewrite bind_print.
  unfold emitir at 1. unfold mbind at 1, Prog_bind at 1.
  rewrite bind_mret. cbv zeta.
  by rewrite bind_print, (bind_inr _ _ ev1 r Hr), bind_print.
Qed.

(** X5: the first container selector that finds anything decides the
    extraction: two pages that agree on it, and on which every selector
    tried before it finds nothing, give the same run of [obtener_ofertas],
    whatever the later selectors find. *)
Theorem obtener_ofertas_primer_selector (self : MonitorEmpleoCloud)
    (env1 env2 : entorno) (s1 s2 : sopa) (k : nat) (sel : sopa → list elemento) :
  env_respuesta env1 = Pagina s1 →
  env_respuesta env2 = Pagina s2 →
  selectores !! k = Some sel →
  (∀ j sel', j < k → selectores !! j = Some sel' → sel' s1 = [] ∧ sel' s2 = []) →
  sel s1 ≠ [] →
  sel s2 = sel s1 →
  obtener_ofertas self env1 = obtener_ofertas self env2.
Proof.
  intros H1 H2 Hk Hprev Hne Heq.
  assert (Hc : or_lista (div_oferta s2) (or_lista (div_job_item s2)
                 (or_lista (article s2) (or_lista (div_card s2) (li_list_item s2))))
               = or_lista (div_oferta s1) (or_lista (div_job_item s1)
                   (or_lista (article s1) (or_lista (div_card s1) (li_list_item s1))))).
  { assert (Hor : ∀ a b : list elemento, a ≠ [] → or_lista a b = a)
      by (intros [|x a] b; done).
    destruct k as [|[|[|[|[|k]]]]]; simpl in Hk; [..| done]; injection Hk as <-.
    - by rewrite Heq, !(Hor (div_oferta s1)).
    - destruct (Hprev 0 div_oferta) as [-> ->]; [lia | done |]. simpl.
      by rewrite Heq, !(Hor (div_job_item s1)).
    - destruct (Hprev 0 div_oferta) as [-> ->]; [lia | done |].
      destruct (Hprev 1 div_job_item) as [-> ->]; [lia | done |]. simpl.
      by rewrite Heq, !(Hor (article s1)).
    - destruct (Hprev 0 div_oferta) as [-> ->]; [lia | done |].
      destruct (Hprev 1 div_job_item) as [-> ->]; [lia | done |].
      destruct (Hprev 2 article) as [-> ->]; [lia | done |]. simpl.
      by rewrite Heq, !(Hor (div_card s1)).
    - destruct (Hprev 0 div_oferta) as [-> ->]; [lia | done |].
      destruct (Hprev 1 div_job_item) as [-> ->]; [lia | done |].
      destruct (Hprev 2 article) as [-> ->]; [lia | done |].
      destruct (Hprev 3 div_card) as [-> ->]; [lia | done |]. simpl.
      by rewrite Heq. }
  destruct (procesar_elementos_calla self []
              (or_lista (div_oferta s1) (or_lista (div_job_item s1)
                 (or_lista (article s1) (or_lista (div_card s1) (li_list_item s1))))))
    as [(ev1 & r & Hr)%termina_inr _].
  rewrite (obtener_ofertas_pagina self env1 s1 ev1 r H1 Hr).
  rewrite <- Hc in Hr.
  rewrite (obtener_ofertas_pagina self env2 s2 ev1 r H2 Hr).
  by rewrite Hc.
Qed.

Lemma obtener_ofertas_primer_selector_ejemplo :
  let c := Ejemplos.contenedor in
  let s1 := {| div_oferta := []; div_job_item := [c "Chef"]; article := [c "Mozo"];
               div_card := []; li_list_item := [] |} in
  let s2 := {| div_oferta := []; div_job_item := [c "Chef"]; article := [];
               div_card := [c "Chofer"]; li_list_item := [c "Mozo"] |} in
  obtener_ofertas (Ejemplos.monitor (JList [])) (Ejemplos.entorno_de Ausente (Pagina s1))
  = obtener_ofertas (Ejemplos.monitor (JList [])) (Ejemplos.entorno_de Ausente (Pagina s2)).
Proof.
  intros c s1 s2.
  apply (obtener_ofertas_primer_selector (Ejemplos.monitor (JList []))
           (Ejemplos.entorno_de Ausente (Pagina s1))
           (Ejemplos.entorno_de Ausente (Pagina s2)) s1 s2
           1 div_job_item eq_refl eq_refl eq_refl); [| done | done].
  intros j sel' Hj Hsel. destruct j as [|j]; [| lia].
  injection Hsel as <-. done.
Defined.

(** ** The diff, on any state that parses *)

Section diff_json.
Context (self : MonitorEmpleoCloud).

(** An entry of the saved state that the diff can read: a dict whose key
    "hash" holds the string [h]. *)
Lemma set_hashes_dicts (emps : list json) (hs : list string) (acc : gset string) :
  Forall2 (λ emp h, ∃ d, emp = JDict d ∧ dict_get d "hash" = Some (JStr h)) emps hs →
  set_hashes acc emps = mret (list_to_set hs ∪ acc).
Proof.
  intros H. revert acc. induction H as [|emp h emps hs (d & -> & Hd) _ IH]; intros acc.
  - simpl. by rewrite (left_id_L ∅ (∪) acc).
  - simpl. rewrite Hd, bind_mret. simpl. rewrite bind_mret, IH. f_equal. set_solver.
Qed.

Lemma set_hashes_falla (emps1 : list json) (hs : list string) (emp : json)
    (emps2 : list json) (acc : gset string) (e : excepcion) :
  Forall2 (λ emp h, ∃ d, emp = JDict d ∧ dict_get d "hash" = Some (JStr h)) emps1 hs →
  subscript_hash emp = ([], inl e) →
  set_hashes acc (emps1 ++ emp :: emps2) = ([], inl e).
Proof.
  intros H He. revert acc. induction H as [|emp' h emps1 hs (d & -> & Hd) _ IH]; intros acc.
  - simpl. by rewrite He.
  - simpl. rewrite Hd, bind_mret. simpl. by rewrite bind_mret, IH.
Qed.

Lemma subscript_hash_falla (emp : json) :
  (∀ d, emp = JDict d → dict_get d "hash" = None) →
  ∃ e, subscript_hash emp = ([], inl e) ∧ (∀ d, emp = JDict d → e = KeyError "hash").
Proof.
  intros H. destruct emp as [| | | | | |d]; simpl; try by eexists.
  rewrite (H d eq_refl). by eexists.
Qed.
End diff_json.

(** X6: of the saved state the diff reads nothing but the key "hash" of
    each entry: against any list of dicts that each hold a string under
    "hash", whatever else they hold or lack, the new listings are those of
    the fetch whose hash is not one of these strings. *)
Theorem detectar_nuevas_ofertas_solo_clave_hash (self : MonitorEmpleoCloud)
    (emps : list json) (hs : list string) (current : list oferta) :
  empleos_anteriores self = JList emps →
  Forall2 (λ emp h, ∃ d, emp = JDict d ∧ dict_get d "hash" = Some (JStr h)) emps hs →
  resultado (detectar_nuevas_ofertas self current)
  = inr (filter (λ o, hash o ∉ hs) current).
Proof.
  intros Hself Hemps. unfold detectar_nuevas_ofertas. rewrite Hself. simpl.
  rewrite bind_mret, (set_hashes_dicts emps hs ∅ Hemps), bind_mret.
  rewrite (list_filter_iff _ (λ o, hash o ∉ hs)).
  - by rewrite bind_print.
  - intros o. by rewrite elem_of_union, elem_of_list_to_set, elem_of_empty, (right_id False or).
Qed.

Lemma detectar_nuevas_ofertas_solo_clave_hash_ejemplo :
  resultado (detectar_nuevas_ofertas
               (Ejemplos.monitor
                  (JList [JDict [("hash", JStr (hash Ejemplos.chef)); ("nota", JNull)]]))
               [Ejemplos.chef; Ejemplos.mozo])
  = inr (filter (λ o, hash o ∉ [hash Ejemplos.chef]) [Ejemplos.chef; Ejemplos.mozo]).
Proof.
  apply (detectar_nuevas_ofertas_solo_clave_hash _
           [JDict [("hash", JStr (hash Ejemplos.chef)); ("nota", JNull)]]
           [hash Ejemplos.chef]); [reflexivity |].
  repeat constructor. by eexists.
Defined.

(** X7: an entry of the saved state that is not a dict, or is a dict with no
    key "hash", makes the diff raise, with nothing printed and whatever the
    fetch holds, as soon as the entries before it have been read; for a dict
    the exception is KeyError('hash'). *)
Theorem detectar_nuevas_ofertas_entrada_invalida (self : MonitorEmpleoCloud)
    (emps1 : list json) (hs : list string) (emp : json) (emps2 : list json)
    (current : list oferta) :
  empleos_anteriores self = JList (emps1 ++ emp :: emps2) →
  Forall2 (λ emp h, ∃ d, emp = JDict d ∧ dict_get d "hash" = Some (JStr h)) emps1 hs →
  (∀ d, emp = JDict d → dict_get d "hash" = None) →
  ∃ e, detectar_nuevas_ofertas self current = ([], inl e)
       ∧ (∀ d, emp = JDict d → e = KeyError "hash").
Proof.
  intros Hself Hemps Hemp.
  destruct (subscript_hash_falla emp Hemp) as (e & He & Hkey).
  exists e. split; [| done].
  unfold detectar_nuevas_ofertas. rewrite Hself. simpl.
  by rewrite bind_mret, (set_hashes_falla emps1 hs emp emps2 ∅ e Hemps He).
Qed.

Lemma detectar_nuevas_ofertas_entrada_invalida_ejemplo :
  ∃ e, detectar_nuevas_ofertas
         (Ejemplos.monitor
            (JList ([oferta_json Ejemplos.chef]
                    ++ JDict [("titulo", JStr "Mozo")] :: [oferta_json Ejemplos.mozo])))
         [Ejemplos.mozo] = ([], inl e)
       ∧ (∀ d, JDict [("titulo", JStr "Mozo")] = JDict d → e = KeyError "hash").
Proof.
  apply (detectar_nuevas_ofertas_entrada_invalida _ [oferta_json Ejemplos.chef]
           [hash Ejemplos.chef] (JDict [("titulo", JStr "Mozo")])
           [oferta_json Ejemplos.mozo]); [reflexivity | |].
  - repeat constructor. by eexists.
  - by intros d [= <-].
Defined.

(** X8: diffing against two saved states one after the other is diffing
    against their concatenation: the listings new with respect to
    [p1 ++ p2] are those, among the listings new with respect to [p1], that
    are new with respect to [p2]. *)
Theorem detectar_nuevas_ofertas_compone (self1 self2 self12 : MonitorEmpleoCloud)
    (p1 p2 current : list oferta) :
  empleos_anteriores self1 = estado_json p1 →
  empleos_anteriores self2 = estado_json p2 →
  empleos_anteriores self12 = estado_json (p1 ++ p2) →
  ∃ nuevas1,
    resultado (detectar_nuevas_ofertas self1 current) = inr nuevas1
    ∧ resultado (detectar_nuevas_ofertas self2 nuevas1)
      = resultado (detectar_nuevas_ofertas self12 current).
Proof.
  intros H1 H2 H12.
  rewrite (detectar_estado self1 p1 current H1), (detectar_estado self12 _ current H12).
  eexists. split; [reflexivity |].
  rewrite (detectar_estado self2 p2 _ H2). simpl. f_equal.
  rewrite list_filter_filter. apply list_filter_iff.
  intros o. rewrite fmap_app, elem_of_app. tauto.
Qed.

Lemma detectar_nuevas_ofertas_compone_ejemplo :
  ∃ nuevas1,
    resultado (detectar_nuevas_ofertas (Ejemplos.monitor (estado_json [Ejemplos.chef]))
                 [Ejemplos.chef; Ejemplos.mozo]) = inr nuevas1
    ∧ resultado (detectar_nuevas_ofertas (Ejemplos.monitor (estado_json [Ejemplos.mozo]))
                   nuevas1)
      = resultado (detectar_nuevas_ofertas
                     (Ejemplos.monitor (estado_json ([Ejemplos.chef] ++ [Ejemplos.mozo])))
                     [Ejemplos.chef; Ejemplos.mozo]).
Proof.
  apply (detectar_nuevas_ofertas_compone _ _ _ [Ejemplos.chef] [Ejemplos.mozo]);
    reflexivity.
Defined.

(** ** What a run does to the outside *)

Section efectos.
Context (self : MonitorEmpleoCloud) (env : entorno).

Lemma eventos_bind_Forall {A B} (P : evento → Prop) (m : Prog A) (f : A → Prog B) :
  Forall P (eventos m) → (∀ x, Forall P (eventos (f x))) →
  Forall P (eventos (m ≫= f)).
Proof.
  destruct m as [ev [e|x]]; simpl; intros Hm Hf; [done |].
  rewrite (bind_inr _ f ev x eq_refl). simpl. apply Forall_app. split; [done | apply Hf].
Qed.

Lemma eventos_atrapar_Forall {A} (P : evento → Prop) (m : Prog A)
    (h : excepcion → Prog A) :
  Forall P (eventos m) → (∀ e, Forall P (eventos (h e))) →
  Forall P (eventos (atrapar m h)).
Proof.
  destruct m as [ev [e|x]]; simpl; intros Hm Hh; [| done].
  specialize (Hh e). unfold atrapar. destruct (h e) as [ev' r]. simpl in *.
  by apply Forall_app.
Qed.

Lemma print_solo_print linea : Forall (λ e, es_print e = true) (eventos (print linea)).
Proof. by repeat constructor. Qed.

Lemma mret_sin_eventos {A} (P : evento → Prop) (x : A) :
  Forall P (eventos (mret x : Prog A)).
Proof. constructor. Qed.

Lemma imprimir_ofertas_solo_print l :
  Forall (λ e, es_print e = true) (eventos (imprimir_ofertas l)).
Proof.
  induction l as [|[i o] l IH]; simpl; [constructor |].
  repeat (apply eventos_bind_Forall; [apply print_solo_print | intros _]). done.
Qed.

Lemma generar_resumen_solo_print nuevas totales :
  Forall (λ e, es_print e = true) (eventos (generar_resumen self env nuevas totales)).
Proof.
  unfold generar_resumen.
  repeat (apply eventos_bind_Forall; [apply print_solo_print | intros _]).
  apply eventos_bind_Forall; [by destruct (empleos_anteriores self) | intros n].
  apply eventos_bind_Forall; [apply print_solo_print | intros _].
  apply eventos_bind_Forall; [| intros _; apply print_solo_print].
  destruct nuevas; [apply print_solo_print |].
  apply eventos_bind_Forall; [apply print_solo_print | intros _].
  apply imprimir_ofertas_solo_print.
Qed.

Lemma set_hashes_sin_eventos (acc : gset string) (emps : list json) :
  eventos (set_hashes acc emps) = [].
Proof.
  revert acc. induction emps as [|emp emps IH]; intros acc; simpl; [done |].
  destruct (subscript_hash emp) as [ev [e|v]] eqn:Hs.
  - by destruct emp as [| | | | | |d]; simpl in Hs; [..| destruct (dict_get d "hash")];
      injection Hs as <- _.
  - assert (ev = []) as ->.
    { by destruct emp as [| | | | | |d]; simpl in Hs; [..| destruct (dict_get d "hash")];
        injection Hs as <- _. }
    rewrite (bind_inr _ _ [] v eq_refl). simpl.
    destruct v; simpl; rewrite ?bind_mret; try apply IH; done.
Qed.

Lemma detectar_nuevas_ofertas_solo_print actuales :
  Forall (λ e, es_print e = true) (eventos (detectar_nuevas_ofertas self actuales)).
Proof.
  unfold detectar_nuevas_ofertas.
  apply eventos_bind_Forall; [by destruct (empleos_anteriores self) | intros emps].
  apply eventos_bind_Forall; [by rewrite set_hashes_sin_eventos | intros hs].
  apply eventos_bind_Forall; [apply print_solo_print | intros _; constructor].
Qed.

Lemma procesar_elementos_solo_print ofertas els :
  Forall (λ e, es_print e = true) (eventos (procesar_elementos self ofertas els)).
Proof.
  revert ofertas. induction els as [|el els IH]; intros ofertas; simpl; [constructor |].
  apply eventos_bind_Forall; [| done].
  unfold procesar_elemento. apply eventos_atrapar_Forall.
  - destruct el as [q|e]; [| constructor]. destruct (or_opcion _ _); constructor.
  - intros e. apply eventos_bind_Forall; [apply print_solo_print | intros; constructor].
Qed.

(** The events of [obtener_ofertas]: a line, the GET of the search URL, and
    then lines only. *)
Lemma obtener_ofertas_eventos :
  ∃ linea l,
    eventos (obtener_ofertas self env) = Print linea :: HttpGet (url_busqueda self) :: l
    ∧ Forall (λ e, es_print e = true) l.
Proof.
  destruct (env_respuesta env) as [e|soup] eqn:Hresp.
  - unfold obtener_ofertas. rewrite Hresp.
    destruct e; eexists _, _; (split; [reflexivity | by repeat constructor]).
  - destruct (procesar_elementos_calla self []
                (or_lista (div_oferta soup) (or_lista (div_job_item soup)
                   (or_lista (article soup) (or_lista (div_card soup) (li_list_item soup))))))
      as [(ev1 & r & Hr)%termina_inr _].
    rewrite (obtener_ofertas_pagina self env soup ev1 r Hresp Hr).
    eexists _, _. split; [reflexivity |].
    constructor; [done |]. apply Forall_app. split; [| by repeat constructor].
    match type of Hr with
    | procesar_elementos _ _ ?els = _ =>
        pose proof (procesar_elementos_solo_print [] els) as H
    end.
    by rewrite Hr in H.
Qed.
End efectos.

Section cuentas.
Context (P : evento → bool).
Local Open Scope nat_scope.

Lemma solo_print_no (l : list evento) :
  (∀ linea, P (Print linea) = false) →
  Forall (λ e, es_print e = true) l → Forall (λ e, P e = false) l.
Proof.
  intros HP H. eapply Forall_impl; [exact H |]. intros [] He; done.
Qed.

Lemma filter_ninguno (l : list evento) :
  Forall (λ e, P e = false) l → filter (λ e, P e = true) l = [].
Proof.
  induction 1 as [|e l He _ IH]; [done |].
  rewrite filter_cons_False; [done | by rewrite He].
Qed.

(** What follows adds nothing to the count when it has no such event. *)
Lemma cuenta_bind_l {A B} (m : Prog A) (f : A → Prog B) :
  (∀ x, Forall (λ e, P e = false) (eventos (f x))) →
  cuenta P (m ≫= f) = cuenta P m.
Proof.
  intros Hf. destruct m as [ev [e|x]]; [done |]. unfold cuenta.
  rewrite (bind_inr _ f ev x eq_refl). simpl.
  by rewrite filter_app, (filter_ninguno _ (Hf x)), app_nil_r.
Qed.

(** What comes first adds nothing to the count when it has no such event. *)
Lemma cuenta_bind_r {A B} (m : Prog A) (f : A → Prog B) (k : nat) :
  Forall (λ e, P e = false) (eventos m) →
  (∀ x, cuenta P (f x) ≤ k) →
  cuenta P (m ≫= f) ≤ k.
Proof.
  intros Hm Hf. destruct m as [ev [e|x]]; unfold cuenta in *; simpl in *.
  - rewrite (filter_ninguno _ Hm). simpl. lia.
  - rewrite (bind_inr _ f ev x eq_refl). simpl.
    rewrite filter_app, (filter_ninguno _ Hm). apply Hf.
Qed.

Lemma cuenta_bind_inr {A B} (m : Prog A) (f : A → Prog B) ev x :
  m = (ev, inr x) → Forall (λ e, P e = false) ev →
  cuenta P (m ≫= f) = cuenta P (f x).
Proof.
  intros Hm Hev. unfold cuenta. rewrite (bind_inr _ f ev x Hm). simpl.
  by rewrite filter_app, (filter_ninguno _ Hev).
Qed.
End cuentas.

Section peticiones.
Context (self : MonitorEmpleoCloud) (env : entorno).
Local Open Scope nat_scope.

Lemma enviar_telegram_eventos nuevas :
  Forall (λ e, es_get e = false) (eventos (enviar_telegram self env nuevas))
  ∧ Forall (λ e, es_escritura e = false) (eventos (enviar_telegram self env nuevas))
  ∧ cuenta es_post (enviar_telegram self env nuevas) ≤ 1.
Proof.
  unfold enviar_telegram, cuenta.
  destruct (_ || _); [by repeat constructor |].
  destruct (env_post env); simpl; repeat split; by repeat constructor.
Qed.

Lemma guardar_estado_eventos empleos :
  Forall (λ e, es_get e = false) (eventos (guardar_estado self env empleos))
  ∧ Forall (λ e, es_post e = false) (eventos (guardar_estado self env empleos))
  ∧ cuenta es_escritura (guardar_estado self env empleos) ≤ 1.
Proof.
  unfold guardar_estado, cuenta.
  destruct (env_escritura env); simpl; repeat split; by repeat constructor.
Qed.

Lemma obtener_ofertas_sin (P : evento → bool) :
  (∀ linea, P (Print linea) = false) → (∀ url, P (HttpGet url) = false) →
  Forall (λ e, P e = false) (eventos (obtener_ofertas self env)).
Proof.
  intros HP HG. destruct obtener_ofertas_eventos with (self := self) (env := env)
    as (linea & l & -> & Hl).
  constructor; [apply HP |]. constructor; [apply HG |]. by apply solo_print_no.
Qed.

(** The Telegram step of [ejecutar]. *)
Lemma notificar_eventos nuevas :
  let paso := match nuevas with
              | _ :: _ => enviar_telegram self env nuevas;; mret ()
              | [] => mret ()
              end in
  Forall (λ e, es_get e = false) (eventos paso)
  ∧ Forall (λ e, es_escritura e = false) (eventos paso)
  ∧ cuenta es_post paso ≤ 1.
Proof.
  destruct nuevas as [|o l]; simpl; [by repeat constructor |].
  destruct (enviar_telegram_eventos (o :: l)) as (Hg & He & Hp).
  repeat split.
  - apply eventos_bind_Forall; [done | intros; constructor].
  - apply eventos_bind_Forall; [done | intros; constructor].
  - rewrite cuenta_bind_l; [done | intros; constructor].
Qed.

Lemma guardar_y_fin_eventos empleos :
  let paso := guardar_estado self env empleos;; print "✓ Verificación completada" in
  Forall (λ e, es_get e = false) (eventos paso)
  ∧ Forall (λ e, es_post e = false) (eventos paso)
  ∧ cuenta es_escritura paso ≤ 1.
Proof.
  destruct (guardar_estado_eventos empleos) as (Hg & Hp & He). simpl.
  repeat split.
  - apply eventos_bind_Forall; [done | intros; by repeat constructor].
  - apply eventos_bind_Forall; [done | intros; by repeat constructor].
  - rewrite cuenta_bind_l; [done | intros; by repeat constructor].
Qed.

Lemma ejecutar_cuentas :
  cuenta es_get (ejecutar self env) = 1
  ∧ cuenta es_post (ejecutar self env) ≤ 1
  ∧ cuenta es_escritura (ejecutar self env) ≤ 1.
Proof.
  unfold ejecutar. repeat split.
  - rewrite !(cuenta_bind_inr es_get (print _) _ [Print _] tt eq_refl)
      by by repeat constructor.
    rewrite cuenta_bind_l.
    + destruct obtener_ofertas_eventos with (self := self) (env := env)
        as (linea & l & Hev & Hl).
      unfold cuenta. rewrite Hev.
      rewrite filter_cons_False, filter_cons_True by done. simpl.
      by rewrite (filter_ninguno es_get l (solo_print_no es_get l (λ _, eq_refl) Hl)).
    + intros [|o actuales]; [by repeat constructor |].
      apply eventos_bind_Forall;
        [apply (solo_print_no es_get), detectar_nuevas_ofertas_solo_print; done
        | intros nuevas].
      apply eventos_bind_Forall;
        [apply (solo_print_no es_get), generar_resumen_solo_print; done | intros _].
      apply eventos_bind_Forall; [apply notificar_eventos | intros _].
      apply guardar_y_fin_eventos.
  - do 2 (apply cuenta_bind_r; [by repeat constructor | intros _]).
    apply cuenta_bind_r; [by apply obtener_ofertas_sin | intros [|o actuales]].
    { unfold cuenta. simpl. lia. }
    apply cuenta_bind_r;
      [apply (solo_print_no es_post), detectar_nuevas_ofertas_solo_print; done
      | intros nuevas].
    apply cuenta_bind_r;
      [apply (solo_print_no es_post), generar_resumen_solo_print; done | intros _].
    rewrite cuenta_bind_l; [apply notificar_eventos | intros _].
    apply guardar_y_fin_eventos.
  - do 2 (apply cuenta_bind_r; [by repeat constructor | intros _]).
    apply cuenta_bind_r; [by apply obtener_ofertas_sin | intros [|o actuales]].
    { unfold cuenta. simpl. lia. }
    apply cuenta_bind_r;
      [apply (solo_print_no es_escritura), detectar_nuevas_ofertas_solo_print; done
      | intros nuevas].
    apply cuenta_bind_r;
      [apply (solo_print_no es_escritura), generar_resumen_solo_print; done | intros _].
    apply cuenta_bind_r; [apply notificar_eventos | intros _].
    apply guardar_y_fin_eventos.
Qed.
End peticiones.

(** X9: whatever the state file holds, whatever the portal answers and
    however Telegram and the file system behave, a run of the program sends
    exactly one GET, posts to Telegram at most once and writes the state
    file at most once; this holds also of a run that ends in an exception. *)
Theorem main_cuenta_efectos (env : entorno) :
  cuenta es_get (main env) = 1
  ∧ (cuenta es_post (main env) ≤ 1)%nat
  ∧ (cuenta es_escritura (main env) ≤ 1)%nat.
Proof.
  destruct (init_resultado env) as (ev & self & Hinit & Hev & _).
  assert (Hprint : Forall (λ e, es_print e = true) ev).
  { rewrite Hev. destruct (env_estado env); by repeat constructor. }
  unfold main.
  rewrite (cuenta_bind_inr es_get _ _ ev self Hinit) by by apply solo_print_no.
  rewrite (cuenta_bind_inr es_post _ _ ev self Hinit) by by apply solo_print_no.
  rewrite (cuenta_bind_inr es_escritura _ _ ev self Hinit) by by apply solo_print_no.
  apply ejecutar_cuentas.
Qed.

Section efectos_externos.
Context (self : MonitorEmpleoCloud) (env : entorno).

Lemma filter_eventos_bind_inr {A B} (P : evento → bool) (m : Prog A)
    (f : A → Prog B) ev x :
  m = (ev, inr x) →
  filter (λ e, P e = true) (eventos (m ≫= f))
  = (filter (λ e, P e = true) ev ++ filter (λ e, P e = true) (eventos (f x)))%list.
Proof. intros Hm. rewrite (bind_inr _ f ev x Hm). simpl. apply filter_app. Qed.

(** The Telegram step: one POST with the digest when there is something new
    and the credentials are set, nothing otherwise; it never fails. *)
Lemma notificar_externos nuevas :
  ∃ evt,
    match nuevas with
    | _ :: _ => enviar_telegram self env nuevas;; mret ()
    | [] => mret ()
    end = (evt, inr ())
    ∧ filter (λ e, es_externo e = true) evt
      = match nuevas with
        | [] => []
        | _ :: _ =>
            if configurado self
            then [HttpPost ("https://api.telegram.org/bot" ++ telegram_bot_token self
                            ++ "/sendMessage")
                           (telegram_chat_id self) (mensaje_telegram nuevas)]
            else []
        end.
Proof.
  destruct nuevas as [|o l]; [by eexists |].
  unfold enviar_telegram, configurado.
  destruct (_ || _); simpl; [by eexists |].
  destruct (env_post env); by eexists.
Qed.

Lemma guardar_externos empleos :
  ∃ evs,
    guardar_estado self env empleos = (evs, inr ())
    ∧ filter (λ e, es_externo e = true) evs
      = [match env_escritura env with
         | None => JsonDump (archivo_estado self) empleos
         | Some _ => JsonDumpFallido (archivo_estado self)
         end].
Proof. unfold guardar_estado. destruct (env_escritura env); by eexists. Qed.
End efectos_externos.

(** What a run with listings does to the outside, against a state the
    program wrote. *)
Lemma ejecutar_externos (self : MonitorEmpleoCloud) (env : entorno)
    (previous current : list oferta) :
  empleos_anteriores self = estado_json previous →
  resultado (obtener_ofertas self env) = inr current →
  current ≠ [] →
  let nuevas := filter (λ o, hash o ∉ (hash <$> previous)) current in
  filter (λ e, es_externo e = true) (eventos (ejecutar self env))
  = (match nuevas with
     | [] => []
     | _ :: _ =>
         if configurado self
         then [HttpPost ("https://api.telegram.org/bot" ++ telegram_bot_token self
                         ++ "/sendMessage")
                        (telegram_chat_id self) (mensaje_telegram nuevas)]
         else []
     end
     ++ [match env_escritura env with
         | None => JsonDump (archivo_estado self) current
         | Some _ => JsonDumpFallido (archivo_estado self)
         end])%list.
Proof.
  intros Hself Hres Hne nuevas.
  destruct (obtener_ofertas self env) as [ev r] eqn:Hob. simpl in Hres. subst r.
  pose proof (obtener_ofertas_sin self env es_externo (λ _, eq_refl) (λ _, eq_refl)) as Hev.
  rewrite Hob in Hev. simpl in Hev.
  destruct current as [|o l]; [done |]. unfold ejecutar.
  rewrite !(filter_eventos_bind_inr es_externo (print _) _ [Print _] () eq_refl).
  rewrite (filter_eventos_bind_inr es_externo _ _ ev (o :: l) Hob). cbv beta iota.
  rewrite (filter_eventos_bind_inr es_externo _ _ _ nuevas
             (detectar_estado self previous (o :: l) Hself)).
  destruct (termina_inr _ (generar_resumen_termina self env nuevas (o :: l)
              ltac:(by rewrite Hself))) as (evg & [] & Hg).
  pose proof (generar_resumen_solo_print self env nuevas (o :: l)) as Hevg.
  rewrite Hg in Hevg. simpl in Hevg.
  rewrite (filter_eventos_bind_inr es_externo _ _ evg () Hg).
  destruct (notificar_externos self env nuevas) as (evt & Ht & Hevt).
  rewrite (filter_eventos_bind_inr es_externo _ _ evt () Ht), Hevt.
  destruct (guardar_externos self env (o :: l)) as (evs & Hs & Hevs).
  rewrite (filter_eventos_bind_inr es_externo _ _ evs () Hs), Hevs.
  rewrite (filter_ninguno es_externo ev Hev).
  rewrite (filter_ninguno es_externo evg (solo_print_no es_externo evg (λ _, eq_refl) Hevg)).
  simpl. by destruct nuevas; [| destruct (configurado self)].
Qed.



Lemma filter_nada {A} (P : A → Prop) `{!∀ x, Decision (P x)} (l : list A) :
  (∀ x, x ∈ l → ¬ P x) → filter P l = [].
Proof.
  induction l as [|x l IH]; intros Hl; [done |].
  rewrite filter_cons_False by (apply Hl; left).
  apply IH. intros y Hy. apply Hl. by right.
Qed.

(** X11: when every listing of the fetch has its hash in the saved state, as
    on a second run over an unchanged page, the run posts nothing to
    Telegram; it still rewrites the state file with the fetch. *)
Theorem ejecutar_sin_novedades (self : MonitorEmpleoCloud) (env : entorno)
    (previous current : list oferta) :
  empleos_anteriores self = estado_json previous →
  resultado (obtener_ofertas self env) = inr current →
  current ≠ [] →
  (∀ o, o ∈ current → hash o ∈ (hash <$> previous)) →
  filter (λ e, es_externo e = true) (eventos (ejecutar self env))
  = [match env_escritura env with
     | None => JsonDump (archivo_estado self) current
     | Some _ => JsonDumpFallido (archivo_estado self)
     end].
Proof.
  intros Hself Hres Hne Hconocidas.
  rewrite (ejecutar_externos self env previous current Hself Hres Hne).
  rewrite (filter_nada (λ o, hash o ∉ (hash <$> previous)) current); [done |].
  intros o Ho Hno. by apply Hno, Hconocidas.
Qed.

Lemma ejecutar_sin_novedades_ejemplo :
  let current := [Ejemplos.del_portal "Chef"; Ejemplos.del_portal "Mozo"] in
  let self := Ejemplos.monitor (estado_json current) in
  let env := (Ejemplos.entorno_de (Cargado (estado_json current))
                (Ejemplos.pagina [Ejemplos.contenedor "Chef"; Ejemplos.contenedor "Mozo"])) in
  filter (λ e, es_externo e = true) (eventos (ejecutar self env))
  = [JsonDump "empleos_anteriores.json" current].
Proof.
  intros current self env.
  apply (ejecutar_sin_novedades self env current current);
    [reflexivity | reflexivity | done |].
  intros o Ho. by apply list_elem_of_fmap_2.
Defined.

(** X12: [enviar_telegram] never raises.  It answers True exactly when both
    credentials are set and the POST went through; it makes one POST when
    both credentials are set and none otherwise. *)
Theorem enviar_telegram_resultado (self : MonitorEmpleoCloud) (env : entorno)
    (nuevas : list oferta) :
  ∃ b : bool,
    resultado (enviar_telegram self env nuevas) = inr b
    ∧ (b = true ↔ configurado self = true ∧ env_post env = None)
    ∧ cuenta es_post (enviar_telegram self env nuevas)
      = (if configurado self then 1 else 0)%nat.
Proof.
  unfold enviar_telegram, configurado, cuenta.
  destruct (_ || _); simpl.
  - exists false. split; [done |]. split; [| done]. split; [done | by intros []].
  - destruct (env_post env) as [e|]; simpl.
    + exists false. split; [done |]. split; [| done]. split; [done | by intros []].
    + exists true. done.
Qed.

(** ** The console summary *)




(** ** The first run *)


